(** * Inverse Time Limit Theory: the two simulation scripts

    A shallow embedding of [Adwanced_simulation.py] (fixed-step RK4 driver)
    and [itlt_simulation.py] (dilation curve sampler and Euler driver).

    The scripts compute with IEEE-754 binary64 numbers.  Every function is
    written once, over an interface [Arith] of the arithmetic the scripts
    use, and read at two instances:
    - [float_arith]: Rocq's primitive binary64 floats, which round exactly as
      CPython and numpy do; the closed programs are executed in this
      instance;
    - [real_arith]: exact real arithmetic, the idealisation without
      rounding, overflow, infinities or NaN; a statement read at this
      instance says that it holds in exact arithmetic and is a statement
      about that idealisation, not about the rounded results of the
      scripts.
    The Python expression [a**2] is read as [a * a]. *)

From Stdlib Require Import ZArith List Bool String Floats Reals Lra Lia Psatz.
Import ListNotations.

Set Warnings "-inexact-float".

(** ** Arithmetic interface *)

Class Arith (T : Type) : Type := {
  (** [lit m e] is the decimal literal [m]e[e], e.g. [lit 1 (-9)] is [1e-9] *)
  lit : Z -> Z -> T;
  Aadd : T -> T -> T;
  Asub : T -> T -> T;
  Amul : T -> T -> T;
  Adiv : T -> T -> T;
  Aneg : T -> T;
  Asqrt : T -> T;
  Altb : T -> T -> bool;
  Aleb : T -> T -> bool
}.

Declare Scope py_scope.
Delimit Scope py_scope with py.
Notation "a + b" := (Aadd a b) : py_scope.
Notation "a - b" := (Asub a b) : py_scope.
Notation "a * b" := (Amul a b) : py_scope.
Notation "a / b" := (Adiv a b) : py_scope.
Notation "- a" := (Aneg a) : py_scope.
Notation "a <? b" := (Altb a b) : py_scope.
Notation "a >? b" := (Altb b a) : py_scope.
Notation "a <=? b" := (Aleb a b) : py_scope.

(** Nearest binary64 number to the decimal [m * 10^e] (round to nearest,
    ties to even), the value a Python float literal denotes. *)
Definition float_lit (m e : Z) : float :=
  match m with
  | Z0 => PrimFloat.zero
  | Zpos p =>
      if (0 <=? e)%Z
      then SF2Prim (binary_normalize prec emax (m * 10 ^ e) 0 false)
      else SF2Prim (SFdiv prec emax (S754_finite false p 0)
                      (S754_finite false (Z.to_pos (10 ^ (- e))) 0))
  | Zneg p =>
      if (0 <=? e)%Z
      then SF2Prim (binary_normalize prec emax (m * 10 ^ e) 0 false)
      else SF2Prim (SFdiv prec emax (S754_finite true p 0)
                      (S754_finite false (Z.to_pos (10 ^ (- e))) 0))
  end.

#[export] Instance float_arith : Arith float := {
  lit := float_lit;
  Aadd := PrimFloat.add;
  Asub := PrimFloat.sub;
  Amul := PrimFloat.mul;
  Adiv := PrimFloat.div;
  Aneg := PrimFloat.opp;
  Asqrt := PrimFloat.sqrt;
  Altb := PrimFloat.ltb;
  Aleb := PrimFloat.leb
}.

Definition real_lit (m e : Z) : R :=
  if (0 <=? e)%Z then IZR (m * 10 ^ e) else (IZR m / IZR (10 ^ (- e)))%R.

#[export] Instance real_arith : Arith R := {
  lit := real_lit;
  Aadd := Rplus;
  Asub := Rminus;
  Amul := Rmult;
  Adiv := Rdiv;
  Aneg := Ropp;
  Asqrt := R_sqrt.sqrt;
  Altb := fun a b => if Rlt_dec a b then true else false;
  Aleb := fun a b => if Rle_dec a b then true else false
}.

(** A binary64 value is finite when it is neither an infinity nor a NaN. *)
Definition is_finite (x : float) : bool :=
  negb (PrimFloat.is_nan x || PrimFloat.is_infinity x).

(** ** Python exceptions *)

Inductive exn : Type := UnboundLocalError | IndexError.

Definition result (A : Type) : Type := (exn + A)%type.

Definition ret {A : Type} (a : A) : result A := inr a.
Definition raise {A : Type} (e : exn) : result A := inl e.
Definition bind {A B : Type} (m : result A) (k : A -> result B) : result B :=
  match m with
  | inl e => inl e
  | inr a => k a
  end.

Notation "x <- m ;; k" := (bind m (fun x => k))
  (at level 61, m at next level, right associativity).

(** ** numpy arrays and the numpy functions the scripts call *)

Section Numpy.
Context {T : Type} `{Arith T}.
Local Open Scope py_scope.

(** A one-dimensional array is the list of its elements. *)
Definition ndarray : Type := list T.

(** [y[i]] *)
Definition getitem (y : ndarray) (i : nat) : result T :=
  match nth_error y i with
  | Some x => ret x
  | None => raise IndexError
  end.

(** [y[i] = v], in place *)
Definition setitem (y : ndarray) (i : nat) (v : T) : result ndarray :=
  if (i <? List.length y)%nat
  then ret (firstn i y ++ v :: skipn (S i) y)
  else raise IndexError.

(** Elementwise [a + b] of arrays of one shape. *)
Definition arr_add (a b : ndarray) : ndarray :=
  map (fun p => fst p + snd p) (combine a b).
(** [c * a], scalar on the left. *)
Definition arr_scale (c : T) (a : ndarray) : ndarray :=
  map (fun x => c * x) a.
(** [a * c], scalar on the right. *)
Definition arr_mul (a : ndarray) (c : T) : ndarray :=
  map (fun x => x * c) a.
(** [a / c] *)
Definition arr_div (a : ndarray) (c : T) : ndarray :=
  map (fun x => x / c) a.

(** [np.linspace(start, stop, num)] with the default [endpoint=True]:
    [step = (stop - start) / (num - 1)], element [i] is
    [i * step + start], and the last element is set to [stop]. *)
Definition linspace (start stop : T) (num : nat) : ndarray :=
  match num with
  | O => []
  | S O => [start]
  | S div =>
      let step := (stop - start) / lit (Z.of_nat div) 0 in
      map (fun i => lit (Z.of_nat i) 0 * step + start) (seq 0 div) ++ [stop]
  end.

Fixpoint insert_sorted (x : T) (l : ndarray) : ndarray :=
  match l with
  | [] => [x]
  | y :: l' => if x <=? y then x :: l else y :: insert_sorted x l'
  end.

(** [np.sort(a)]: the elements of [a] in ascending order. *)
Definition np_sort (a : ndarray) : ndarray :=
  fold_right insert_sorted [] a.
End Numpy.

Arguments ndarray T : clear implicits.

Declare Scope arr_scope.
Delimit Scope arr_scope with arr.
Notation "a |+| b" := (arr_add a b) (at level 50, left associativity) : arr_scope.
Notation "c *| a" := (arr_scale c a) (at level 40, left associativity) : arr_scope.
Notation "a |* c" := (arr_mul a c) (at level 40, left associativity) : arr_scope.
Notation "a |/ c" := (arr_div a c) (at level 40, left associativity) : arr_scope.

(** ** Adwanced_simulation.py *)

Module Adwanced_simulation.
Section Code.
Context {T : Type} `{Arith T}.
Local Open Scope py_scope.
Local Open Scope arr_scope.

Definition L_P : T := lit 1 0.
Definition K_INV : T := lit 1 0.
Definition DT : T := lit 1 (-2).
Definition TOTAL_STEPS : nat := 3000.

(** The clamped square-root factor of [get_resistance]. *)
Definition resistance_factor (x : T) : T :=
  let factor := Asqrt (lit 1 0 - (L_P / x) * (L_P / x)) in
  if factor <? lit 1 (-9) then lit 1 (-9) else factor.

(** No operation of the [try] block raises on numpy scalars (a negative
    radicand or a zero divisor yields nan or inf with a warning), so the
    [except] arm is never entered and the block is its body. *)
Definition get_resistance (x : T) : T :=
  if x <=? L_P then lit 1 9
  else K_INV / resistance_factor x.

(** The local [dx_dt] is bound by the two recognised modes only. *)
Definition derivatives (t : T) (y : ndarray T) (mode : string)
  : result (ndarray T) :=
  x <- getitem y 0 ;;
  let v_base := lit 5 (-1) in
  let dx_dt : option T :=
    if String.eqb mode "standard"%string then Some (- v_base)
    else if String.eqb mode "itlt"%string then
           let resistance := get_resistance x in
           Some (- v_base / resistance)
         else None in
  match dx_dt with
  | Some v => ret [v]
  | None => raise UnboundLocalError
  end.

Definition rk4_step (t : T) (y : ndarray T) (dt : T) (mode : string)
  : result (ndarray T) :=
  k1 <- derivatives t y mode ;;
  k2 <- derivatives (t + dt / lit 2 0) (y |+| k1 |* dt |/ lit 2 0) mode ;;
  k3 <- derivatives (t + dt / lit 2 0) (y |+| k2 |* dt |/ lit 2 0) mode ;;
  k4 <- derivatives (t + dt) (y |+| k3 |* dt) mode ;;
  let y_next :=
    y |+| (dt / lit 6 0) *| (k1 |+| lit 2 0 *| k2 |+| lit 2 0 *| k3 |+| k4) in
  ret y_next.

(** The variables of [run_simulation] that the loop reads and writes. *)
Record sim : Type := {
  t : T;
  state_std : ndarray T;
  state_itlt : ndarray T;
  time_points : list T;
  hist_std : list T;
  hist_itlt : list T
}.

(** One iteration of [for _ in range(TOTAL_STEPS)]. *)
Definition loop_body (s : sim) : result sim :=
  let time_points' := time_points s ++ [t s] in
  std0 <- getitem (state_std s) 0 ;;
  let hist_std' := hist_std s ++ [std0] in
  itlt0 <- getitem (state_itlt s) 0 ;;
  let hist_itlt' := hist_itlt s ++ [itlt0] in
  state_std' <-
    (if std0 >? lit 0 0 then
       y <- rk4_step (t s) (state_std s) DT "standard"%string ;;
       y0 <- getitem y 0 ;;
       if y0 <? lit 0 0 then setitem y 0 (lit 0 0) else ret y
     else setitem (state_std s) 0 (lit 0 0)) ;;
  state_itlt' <-
    (if itlt0 >? L_P then
       y <- rk4_step (t s) (state_itlt s) DT "itlt"%string ;;
       y0 <- getitem y 0 ;;
       if y0 <? L_P then setitem y 0 L_P else ret y
     else setitem (state_itlt s) 0 L_P) ;;
  ret {| t := t s + DT;
         state_std := state_std';
         state_itlt := state_itlt';
         time_points := time_points';
         hist_std := hist_std';
         hist_itlt := hist_itlt' |}.

Fixpoint for_range (n : nat) (s : sim) : result sim :=
  match n with
  | O => ret s
  | S n' => s' <- loop_body s ;; for_range n' s'
  end.

(** The state before the loop, for a start position [start_x]. *)
Definition initial (start_x : T) : sim :=
  {| t := lit 0 0;
     state_std := [start_x];
     state_itlt := [start_x];
     time_points := [];
     hist_std := [];
     hist_itlt := [] |}.

(** The numerical part of [run_simulation], up to the plotting. *)
Definition run_simulation : result sim :=
  let start_x := lit 5 0 in
  for_range TOTAL_STEPS (initial start_x).
End Code.
Arguments sim T : clear implicits.
End Adwanced_simulation.

(** ** itlt_simulation.py *)

(** A Python float that may be [float('inf')]; exact reals have no infinite
    element, so the infinite value is a constructor of its own. *)
Inductive value (T : Type) : Type :=
| Finite (x : T)
| Infinity.
Arguments Finite {T} x.
Arguments Infinity {T}.

Module itlt_simulation.
Section Code.
Context {T : Type} `{Arith T}.
Local Open Scope py_scope.

Definition l_p : T := lit 1616255 (-41).
Definition t_p : T := lit 5391247 (-50).
Definition k_inv : T := t_p.

Definition calculate_time_dilation (x_factor : T) : value T :=
  if x_factor <=? lit 1 0 then Infinity
  else
    let denominator :=
      Asqrt (lit 1 0 - (lit 1 0 / x_factor) * (lit 1 0 / x_factor)) in
    Finite (k_inv / denominator).

Definition x_factors : ndarray T :=
  np_sort (linspace (lit 1001 (-3)) (lit 11 (-1)) 50
           ++ linspace (lit 11 (-1)) (lit 25 (-1)) 50
           ++ linspace (lit 25 (-1)) (lit 10 0) 50).

Definition t_values : list (value T) :=
  map calculate_time_dilation x_factors.

(** [t / t_p]; an infinite [t] over the positive [t_p] stays infinite. *)
Definition value_div (v : value T) (c : T) : value T :=
  match v with
  | Finite x => Finite (x / c)
  | Infinity => Infinity
  end.

Definition dilation_factors : list (value T) :=
  map (fun t => value_div t t_p) t_values.

(** The rows of the exported data frame:
    (Distance_Factor, Time_Dilation_Value, Dilation_Ratio). *)
Definition df : list (T * value T * value T) :=
  combine (combine x_factors t_values) dilation_factors.

(** The variables of [run_simulation] that the loop reads and writes. *)
Record sim : Type := {
  t : T;
  x_class : T;
  x_itlt : T;
  time_axis : list T;
  dist_classical : list T;
  dist_itlt : list T
}.

Section Run.
(** Locals of [run_simulation]; [l_p] and [k_inv] shadow the globals. *)
Let l_p : T := lit 1 0.
Let k_inv : T := lit 1 0.
Definition dt : T := lit 1 (-2).
Definition total_steps : nat := 2000.
Definition start_distance : T := lit 5 0.

(** The [try] block of the loop; as in [get_resistance], no operation
    of it raises, so its [except] arm is never entered. *)
Definition time_resistance_at (x_itlt : T) : T :=
  let denominator := Asqrt (lit 1 0 - (l_p / x_itlt) * (l_p / x_itlt)) in
  let denominator :=
    if denominator <? lit 1 (-9) then lit 1 (-9) else denominator in
  k_inv / denominator.

(** One iteration of [for i in range(total_steps)]. *)
Definition loop_body (s : sim) : sim :=
  let time_axis' := time_axis s ++ [t s] in
  let dist_classical' := dist_classical s ++ [x_class s] in
  let dist_itlt' := dist_itlt s ++ [x_itlt s] in
  let v_infall := lit 5 (-1) in
  let x_class' :=
    if x_class s >? lit 0 0 then x_class s - v_infall * dt
    else lit 0 0 in
  let x_itlt' :=
    if x_itlt s >? l_p then
      let time_resistance := time_resistance_at (x_itlt s) in
      let v_observed := v_infall / time_resistance in
      x_itlt s - v_observed * dt
    else l_p in
  {| t := t s + dt;
     x_class := x_class';
     x_itlt := x_itlt';
     time_axis := time_axis';
     dist_classical := dist_classical';
     dist_itlt := dist_itlt' |}.

Fixpoint for_range (n : nat) (s : sim) : sim :=
  match n with
  | O => s
  | S n' => for_range n' (loop_body s)
  end.

(** The state before the loop, for a start position [x0]. *)
Definition initial (x0 : T) : sim :=
  {| t := lit 0 0;
     x_class := x0;
     x_itlt := x0;
     time_axis := [];
     dist_classical := [];
     dist_itlt := [] |}.

(** The numerical part of [run_simulation], up to the plotting. *)
Definition run_simulation : sim :=
  for_range total_steps (initial start_distance).
End Run.
End Code.
Arguments sim T : clear implicits.
End itlt_simulation.


(** ** Scalar reading of the loops

    The loops keep one position per particle; the functions below give the
    next position as a function of the current one.  They are derived, not
    transcribed: [Adwanced_loop_body_next] and [itlt_loop_body_next] relate
    them to the loop bodies above. *)

Section Transitions.
Context {T : Type} `{Arith T}.
Local Open Scope py_scope.

(** The RK4 update of [rk4_step] on a one-element state, for a velocity
    law [f] of the position. *)
Definition rk4_scalar (f : T -> T) (y dt : T) : T :=
  let k1 := f y in
  let k2 := f (y + k1 * dt / lit 2 0) in
  let k3 := f (y + k2 * dt / lit 2 0) in
  let k4 := f (y + k3 * dt) in
  y + dt / lit 6 0 * (k1 + lit 2 0 * k2 + lit 2 0 * k3 + k4).

Definition standard_velocity (x : T) : T := - lit 5 (-1).

Definition itlt_velocity (x : T) : T :=
  - lit 5 (-1) / Adwanced_simulation.get_resistance x.

(** Standard particle of [Adwanced_simulation]. *)
Definition rk4_std_next (a : T) : T :=
  if a >? lit 0 0 then
    let y := rk4_scalar standard_velocity a Adwanced_simulation.DT in
    if y <? lit 0 0 then lit 0 0 else y
  else lit 0 0.

(** ITLT particle of [Adwanced_simulation]. *)
Definition rk4_itlt_next (b : T) : T :=
  if b >? Adwanced_simulation.L_P then
    let y := rk4_scalar itlt_velocity b Adwanced_simulation.DT in
    if y <? Adwanced_simulation.L_P then Adwanced_simulation.L_P else y
  else Adwanced_simulation.L_P.

(** Standard particle of [itlt_simulation]. *)
Definition euler_std_next (a : T) : T :=
  if a >? lit 0 0 then a - lit 5 (-1) * itlt_simulation.dt else lit 0 0.

(** ITLT particle of [itlt_simulation]. *)
Definition euler_itlt_next (b : T) : T :=
  if b >? lit 1 0 then
    b - lit 5 (-1) / itlt_simulation.time_resistance_at b * itlt_simulation.dt
  else lit 1 0.

(** The first [n] values of the orbit [a, f a, f (f a), ...]. *)
Definition orbit (f : T -> T) (n : nat) (a : T) : list T :=
  map (fun i => Nat.iter i f a) (seq 0 n).
End Transitions.

(** ** Observations on lists of numbers *)

Section Observations.
Context {T : Type} `{Arith T}.
Local Open Scope py_scope.

(** Every element is at most its successor. *)
Fixpoint ascending (l : list T) : bool :=
  match l with
  | [] => true
  | x :: l' =>
      match l' with
      | [] => true
      | y :: _ => (x <=? y) && ascending l'
      end
  end.

(** [P] holds of the first [n] values of the orbit of [a] under [f]. *)
Fixpoint orbit_forallb (P : T -> bool) (f : T -> T) (n : nat) (a : T)
  : bool :=
  match n with
  | O => true
  | S n' => P a && orbit_forallb P f n' (f a)
  end.
End Observations.

(** ** Stage points of the RK4 step *)

(** The positions at which one RK4 step evaluates the velocity law [f]:
    the arguments of its four stages. *)
Definition rk4_stage_points {T : Type} `{Arith T} (f : T -> T) (y dt : T)
  : list T :=
  let k1 := f y in
  let k2 := f (y + k1 * dt / lit 2 0)%py in
  let k3 := f (y + k2 * dt / lit 2 0)%py in
  [y; (y + k1 * dt / lit 2 0)%py; (y + k2 * dt / lit 2 0)%py;
   (y + k3 * dt)%py].

(** ** Checks on binary64 values *)


(** At the position [b] the resistance is finite, between 1 and 1e9 and not
    zero, and the ITLT derivative there is finite and negative. *)
Definition resistance_is_safe_at (b : float) : bool :=
  let r := Adwanced_simulation.get_resistance b in
  is_finite r && PrimFloat.leb 1 r && PrimFloat.leb r 1e9
  && negb (PrimFloat.eqb r 0)
  && match Adwanced_simulation.derivatives 0%float [b] "itlt" with
     | inr [v] => is_finite v && PrimFloat.ltb v 0
     | _ => false
     end.



(** [a] and [b] agree to the relative tolerance [tol]:
    [|a - b| <= tol * |b|]. *)
Definition close_to (tol a b : float) : bool :=
  PrimFloat.leb (PrimFloat.abs (a - b)) (tol * PrimFloat.abs b).

(** * Properties *)

(** ** Literals *)

(** [float_lit] yields the binary64 numbers that the literals of the scripts
    denote. *)
Lemma float_literals :
  (lit 1 (-2) : float) = 0.01%float /\
  (lit 5 (-1) : float) = 0.5%float /\
  (lit 1 9 : float) = 1e9%float /\
  (lit 1 (-9) : float) = 1e-9%float /\
  (lit 1001 (-3) : float) = 1.001%float /\
  (lit 11 (-1) : float) = 1.1%float /\
  (lit 25 (-1) : float) = 2.5%float /\
  (lit 5391247 (-50) : float) = 5.391247e-44%float /\
  (lit 1616255 (-41) : float) = 1.616255e-35%float /\
  (lit 0 0 : float) = 0%float.
Proof. repeat split; vm_compute; reflexivity. Qed.

(** ** Modes of the derivative law *)

Section Derivatives.
Context {T : Type} `{Arith T}.
Local Open Scope py_scope.
Import Adwanced_simulation.

(** C10: [derivatives] returns a one-element velocity vector exactly when
    the mode is 'standard' or 'itlt'; with any other mode [dx_dt] is never
    bound and the call raises [UnboundLocalError] instead of returning. *)
Theorem derivatives_defined_iff_known_mode
  (t0 x : T) (rest : list T) (mode : string) :
  ((mode = "standard"%string \/ mode = "itlt"%string) ->
     exists v, derivatives t0 (x :: rest) mode = inr [v]) /\
  (~ (mode = "standard"%string \/ mode = "itlt"%string) ->
     derivatives t0 (x :: rest) mode = inl UnboundLocalError) /\
  derivatives t0 (x :: rest) "standard" = inr [- lit 5 (-1)] /\
  derivatives t0 (x :: rest) "itlt" = inr [- lit 5 (-1) / get_resistance x].
Proof.
  unfold derivatives; cbn [getitem nth_error bind ret].
  repeat split.
  - intros [-> | ->]; cbn; eauto.
  - intros Hmode.
    destruct (String.eqb_spec mode "standard") as [E | _];
      [exfalso; auto |].
    destruct (String.eqb_spec mode "itlt") as [E | _];
      [exfalso; auto |].
    reflexivity.
Qed.
End Derivatives.

Lemma derivatives_defined_iff_known_mode_witness :
  Adwanced_simulation.derivatives 0%float [5%float] "euler"
    = inl UnboundLocalError.
Proof.
  apply (derivatives_defined_iff_known_mode 0%float 5%float [] "euler").
  intros [E | E]; discriminate E.
Defined.

(** ** Exact real arithmetic *)

Section RealLiterals.
Local Open Scope R_scope.

Lemma real_lit_int (m : Z) : (lit m 0 : R) = IZR m.
Proof.
  cbv [lit real_arith real_lit].
  change (0 <=? 0)%Z with true. cbv iota.
  now rewrite Z.pow_0_r, Z.mul_1_r.
Qed.

Lemma real_lit_half : (lit 5 (-1) : R) = 1 / 2.
Proof. cbv [lit real_arith real_lit]; simpl; lra. Qed.

Lemma real_lit_dt : (lit 1 (-2) : R) = 1 / 100.
Proof. cbv [lit real_arith real_lit]; simpl; lra. Qed.

Lemma real_lit_eps : (lit 1 (-9) : R) = 1 / 1000000000.
Proof. cbv [lit real_arith real_lit]; simpl; lra. Qed.

Lemma real_lit_big : (lit 1 9 : R) = 1000000000.
Proof. cbv [lit real_arith real_lit]; simpl; lra. Qed.
End RealLiterals.

Create Rewrite HintDb real_lits.
#[global] Hint Rewrite real_lit_int real_lit_half real_lit_dt real_lit_eps
  real_lit_big : real_lits.

(** Reads the interface operations at the real instance. *)
Ltac real_ops :=
  autorewrite with real_lits;
  cbv beta iota zeta delta
    [Aadd Asub Amul Adiv Aneg Asqrt Altb Aleb real_arith].

(** ** The resistance function over the reals *)

Section ResistanceReal.
Local Open Scope R_scope.
Import Adwanced_simulation.

Lemma inv_bounds (x : R) : 1 < x -> 0 < 1 / x < 1.
Proof.
  intros Hx.
  assert (H0 : 0 < / x) by (apply Rinv_0_lt_compat; lra).
  assert (H1 : / x * x = 1) by (apply Rinv_l; lra).
  unfold Rdiv. rewrite Rmult_1_l. split; [exact H0 | nra].
Qed.

Lemma inv_decreasing (x1 x2 : R) : 1 < x1 -> x1 < x2 -> 1 / x2 < 1 / x1.
Proof.
  intros H1 H2. unfold Rdiv. rewrite !Rmult_1_l.
  apply Rinv_lt_contravar; nra.
Qed.

Lemma radicand_bounds (x : R) : 1 < x -> 0 < 1 - 1 / x * (1 / x) < 1.
Proof. intros Hx. pose proof (inv_bounds x Hx). nra. Qed.

Lemma radicand_increasing (x1 x2 : R) :
  1 < x1 -> x1 < x2 -> 1 - 1 / x1 * (1 / x1) < 1 - 1 / x2 * (1 / x2).
Proof.
  intros H1 H2.
  pose proof (inv_bounds x1 H1). pose proof (inv_bounds x2 ltac:(lra)).
  pose proof (inv_decreasing x1 x2 H1 H2). nra.
Qed.

Lemma sqrt_radicand_bounds (x : R) :
  1 < x -> 0 < sqrt (1 - 1 / x * (1 / x)) < 1.
Proof.
  intros Hx. pose proof (radicand_bounds x Hx) as [Hlo Hhi]. split.
  - apply sqrt_lt_R0; lra.
  - replace 1 with (sqrt 1) at 4 by apply sqrt_1.
    apply sqrt_lt_1; lra.
Qed.

(** The clamp is a maximum with the epsilon. *)
Lemma resistance_factor_real (x : R) :
  resistance_factor x
  = Rmax (1 / 1000000000) (sqrt (1 - 1 / x * (1 / x))).
Proof.
  unfold resistance_factor, L_P. real_ops.
  unfold Rmax.
  destruct (Rlt_dec (sqrt (1 - 1 / x * (1 / x))) (1 / 1000000000));
    destruct (Rle_dec (1 / 1000000000) (sqrt (1 - 1 / x * (1 / x)))); lra.
Qed.

Lemma resistance_factor_bounds (x : R) :
  1 < x -> 1 / 1000000000 <= resistance_factor x < 1.
Proof.
  intros Hx. rewrite resistance_factor_real.
  pose proof (sqrt_radicand_bounds x Hx) as [Hlo Hhi].
  split; [apply Rmax_l |]. apply Rmax_lub_lt; lra.
Qed.

Lemma get_resistance_inside (x : R) :
  x <= 1 -> get_resistance x = 1000000000.
Proof.
  intros Hx. unfold get_resistance, L_P. real_ops.
  destruct (Rle_dec x 1); [reflexivity | contradiction].
Qed.

Lemma get_resistance_outside (x : R) :
  1 < x -> get_resistance x = 1 / resistance_factor x.
Proof.
  intros Hx. unfold get_resistance, L_P, K_INV. real_ops.
  destruct (Rle_dec x 1); [lra | reflexivity].
Qed.

Lemma get_resistance_bounds (x : R) : 1 < get_resistance x <= 1000000000.
Proof.
  destruct (Rle_or_lt x 1) as [Hx | Hx].
  - rewrite get_resistance_inside by exact Hx. lra.
  - rewrite get_resistance_outside by exact Hx.
    pose proof (resistance_factor_bounds x Hx) as [Hlo Hhi].
    set (f := resistance_factor x) in *.
    assert (Hf : 0 < f) by lra.
    split.
    + apply Rmult_lt_reg_r with f; [exact Hf |].
      unfold Rdiv. rewrite Rmult_assoc, Rinv_l by lra. lra.
    + apply Rmult_le_reg_r with f; [exact Hf |].
      unfold Rdiv. rewrite Rmult_assoc, Rinv_l by lra. lra.
Qed.
End ResistanceReal.

Section ResistanceSafety.
Local Open Scope R_scope.
Import Adwanced_simulation.

Lemma time_resistance_at_real (x : R) :
  1 < x -> itlt_simulation.time_resistance_at x = get_resistance x.
Proof.
  intros Hx. rewrite get_resistance_outside by exact Hx.
  unfold itlt_simulation.time_resistance_at, resistance_factor, L_P.
  reflexivity.
Qed.

End ResistanceSafety.

(** ** Shape of the resistance curve over the reals *)

Section ResistanceShape.
Local Open Scope R_scope.
Import Adwanced_simulation.

Lemma sqrt_radicand_increasing (x1 x2 : R) :
  1 < x1 -> x1 < x2 ->
  sqrt (1 - 1 / x1 * (1 / x1)) < sqrt (1 - 1 / x2 * (1 / x2)).
Proof.
  intros H1 H2.
  pose proof (radicand_bounds x1 H1).
  pose proof (radicand_bounds x2 ltac:(lra)).
  pose proof (radicand_increasing x1 x2 H1 H2).
  apply sqrt_lt_1; lra.
Qed.


Lemma one_over_lt (a b : R) : 0 < a -> a < b -> 1 / b < 1 / a.
Proof.
  intros Ha Hab. unfold Rdiv. rewrite !Rmult_1_l.
  apply Rinv_lt_contravar; [nra | assumption].
Qed.


Lemma get_resistance_strict (x1 x2 : R) :
  1 < x1 -> x1 < x2 ->
  1 / 1000000000 <= sqrt (1 - 1 / x1 * (1 / x1)) ->
  get_resistance x2 < get_resistance x1.
Proof.
  intros H1 H2 Hclamp.
  rewrite !get_resistance_outside by lra.
  pose proof (sqrt_radicand_increasing x1 x2 H1 H2) as Hs.
  rewrite !resistance_factor_real.
  rewrite (Rmax_right _ (sqrt (1 - 1 / x1 * (1 / x1)))) by exact Hclamp.
  rewrite (Rmax_right _ (sqrt (1 - 1 / x2 * (1 / x2)))) by lra.
  apply one_over_lt; lra.
Qed.



Lemma t_p_positive : 0 < (itlt_simulation.t_p : R).
Proof.
  unfold itlt_simulation.t_p. cbv [lit real_arith real_lit].
  change (0 <=? -50)%Z with false. cbv iota.
  apply Rdiv_lt_0_compat; apply IZR_lt; [lia |].
  apply Z.pow_pos_nonneg; lia.
Qed.

Lemma calculate_time_dilation_inside (x : R) :
  x <= 1 -> itlt_simulation.calculate_time_dilation x = Infinity.
Proof.
  intros Hx. unfold itlt_simulation.calculate_time_dilation. real_ops.
  destruct (Rle_dec x 1); [reflexivity | contradiction].
Qed.

Lemma calculate_time_dilation_outside (x : R) :
  1 < x ->
  itlt_simulation.calculate_time_dilation x
  = Finite (itlt_simulation.k_inv / sqrt (1 - 1 / x * (1 / x))).
Proof.
  intros Hx. unfold itlt_simulation.calculate_time_dilation. real_ops.
  destruct (Rle_dec x 1); [lra | reflexivity].
Qed.
End ResistanceShape.

(** ** Structure of the two loops *)

Section LoopStructure.
Context {T : Type} `{Arith T}.
Local Open Scope py_scope.

Lemma orbit_length (f : T -> T) (n : nat) (a : T) :
  List.length (orbit f n a) = n.
Proof. unfold orbit. now rewrite length_map, length_seq. Qed.

Lemma orbit_succ (f : T -> T) (n : nat) (a : T) :
  orbit f (S n) a = a :: orbit f n (f a).
Proof.
  unfold orbit. cbn [seq map Nat.iter nat_rect]. f_equal.
  rewrite <- seq_shift, map_map.
  apply map_ext. intros i. apply Nat.iter_succ_r.
Qed.

Lemma orbit_nth (f : T -> T) (n : nat) (a : T) (i : nat) :
  (i < n)%nat -> nth_error (orbit f n a) i = Some (Nat.iter i f a).
Proof.
  intros Hi. unfold orbit.
  rewrite nth_error_map, nth_error_seq.
  destruct (Nat.ltb_spec i n) as [_ | Hge]; [reflexivity | lia].
Qed.

Lemma rk4_step_standard (t0 y h : T) :
  Adwanced_simulation.rk4_step t0 [y] h "standard"
  = inr [rk4_scalar standard_velocity y h].
Proof. reflexivity. Qed.

Lemma rk4_step_itlt (t0 y h : T) :
  Adwanced_simulation.rk4_step t0 [y] h "itlt"
  = inr [rk4_scalar itlt_velocity y h].
Proof. reflexivity. Qed.

(** One iteration of the RK4 loop on one-element states: it records the
    current time and positions, then advances each particle. *)
Lemma Adwanced_loop_body_next (s : Adwanced_simulation.sim T) (a b : T) :
  Adwanced_simulation.state_std s = [a] ->
  Adwanced_simulation.state_itlt s = [b] ->
  Adwanced_simulation.loop_body s
  = inr {| Adwanced_simulation.t :=
             Adwanced_simulation.t s + Adwanced_simulation.DT;
           Adwanced_simulation.state_std := [rk4_std_next a];
           Adwanced_simulation.state_itlt := [rk4_itlt_next b];
           Adwanced_simulation.time_points :=
             Adwanced_simulation.time_points s ++ [Adwanced_simulation.t s];
           Adwanced_simulation.hist_std :=
             Adwanced_simulation.hist_std s ++ [a];
           Adwanced_simulation.hist_itlt :=
             Adwanced_simulation.hist_itlt s ++ [b] |}.
Proof.
  intros Ha Hb. unfold Adwanced_simulation.loop_body.
  rewrite Ha, Hb. cbn [getitem nth_error bind ret].
  rewrite rk4_step_standard, rk4_step_itlt.
  unfold rk4_std_next, rk4_itlt_next.
  destruct (lit 0 0 <? a); destruct (Adwanced_simulation.L_P <? b);
    cbn [getitem nth_error bind ret];
    repeat match goal with
           | |- context [if ?c then _ else _] => destruct c
           end;
    reflexivity.
Qed.
End LoopStructure.

Section Runs.
Context {T : Type} `{Arith T}.
Local Open Scope py_scope.

(** [n] iterations of the RK4 loop never raise on one-element states; they
    append the first [n] values of each orbit to the histories and leave
    the [n]-th values in the state. *)
Lemma Adwanced_for_range_orbit (n : nat) :
  forall (s : Adwanced_simulation.sim T) (a b : T),
    Adwanced_simulation.state_std s = [a] ->
    Adwanced_simulation.state_itlt s = [b] ->
    Adwanced_simulation.for_range n s
    = inr {| Adwanced_simulation.t :=
               Nat.iter n (fun t0 => t0 + Adwanced_simulation.DT)
                 (Adwanced_simulation.t s);
             Adwanced_simulation.state_std := [Nat.iter n rk4_std_next a];
             Adwanced_simulation.state_itlt := [Nat.iter n rk4_itlt_next b];
             Adwanced_simulation.time_points :=
               Adwanced_simulation.time_points s
               ++ orbit (fun t0 => t0 + Adwanced_simulation.DT) n
                    (Adwanced_simulation.t s);
             Adwanced_simulation.hist_std :=
               Adwanced_simulation.hist_std s ++ orbit rk4_std_next n a;
             Adwanced_simulation.hist_itlt :=
               Adwanced_simulation.hist_itlt s ++ orbit rk4_itlt_next n b |}.
Proof.
  induction n as [| n IH]; intros s a b Ha Hb.
  - cbn [Adwanced_simulation.for_range Nat.iter nat_rect].
    unfold orbit; cbn [seq map]. rewrite !app_nil_r, <- Ha, <- Hb.
    destruct s; reflexivity.
  - cbn [Adwanced_simulation.for_range].
    rewrite (Adwanced_loop_body_next s a b Ha Hb). cbn [bind].
    erewrite IH by reflexivity.
    cbn [Adwanced_simulation.t Adwanced_simulation.time_points
         Adwanced_simulation.hist_std Adwanced_simulation.hist_itlt].
    rewrite !orbit_succ, <- !app_assoc, !Nat.iter_succ_r.
    reflexivity.
Qed.

Lemma itlt_loop_body_next (s : itlt_simulation.sim T) :
  itlt_simulation.loop_body s
  = {| itlt_simulation.t := itlt_simulation.t s + itlt_simulation.dt;
       itlt_simulation.x_class := euler_std_next (itlt_simulation.x_class s);
       itlt_simulation.x_itlt := euler_itlt_next (itlt_simulation.x_itlt s);
       itlt_simulation.time_axis :=
         itlt_simulation.time_axis s ++ [itlt_simulation.t s];
       itlt_simulation.dist_classical :=
         itlt_simulation.dist_classical s ++ [itlt_simulation.x_class s];
       itlt_simulation.dist_itlt :=
         itlt_simulation.dist_itlt s ++ [itlt_simulation.x_itlt s] |}.
Proof. reflexivity. Qed.

Lemma itlt_for_range_orbit (n : nat) :
  forall s : itlt_simulation.sim T,
    itlt_simulation.for_range n s
    = {| itlt_simulation.t :=
           Nat.iter n (fun t0 => t0 + itlt_simulation.dt)
             (itlt_simulation.t s);
         itlt_simulation.x_class :=
           Nat.iter n euler_std_next (itlt_simulation.x_class s);
         itlt_simulation.x_itlt :=
           Nat.iter n euler_itlt_next (itlt_simulation.x_itlt s);
         itlt_simulation.time_axis :=
           itlt_simulation.time_axis s
           ++ orbit (fun t0 => t0 + itlt_simulation.dt) n
                (itlt_simulation.t s);
         itlt_simulation.dist_classical :=
           itlt_simulation.dist_classical s
           ++ orbit euler_std_next n (itlt_simulation.x_class s);
         itlt_simulation.dist_itlt :=
           itlt_simulation.dist_itlt s
           ++ orbit euler_itlt_next n (itlt_simulation.x_itlt s) |}.
Proof.
  induction n as [| n IH]; intros s.
  - cbn [itlt_simulation.for_range Nat.iter nat_rect].
    unfold orbit; cbn [seq map]. rewrite !app_nil_r.
    destruct s; reflexivity.
  - cbn [itlt_simulation.for_range]. rewrite IH, itlt_loop_body_next.
    cbn [itlt_simulation.t itlt_simulation.x_class itlt_simulation.x_itlt
         itlt_simulation.time_axis itlt_simulation.dist_classical
         itlt_simulation.dist_itlt].
    rewrite !orbit_succ, <- !app_assoc, !Nat.iter_succ_r.
    reflexivity.
Qed.
End Runs.

(** ** Permanence of the terminal states *)

Section Permanence.
Context {T : Type} `{Arith T}.
Local Open Scope py_scope.

(** The two comparisons that guard the integration steps are false at the
    clamp values themselves. *)
Hypothesis zero_not_above_zero : (lit 0 0 >? lit 0 0) = false.
Hypothesis boundary_not_above_boundary : (lit 1 0 >? lit 1 0) = false.

Lemma iter_fixed (f : T -> T) (c : T) (k : nat) :
  f c = c -> Nat.iter k f c = c.
Proof.
  intros Hc. induction k as [| k IH]; [reflexivity |].
  cbn [Nat.iter nat_rect]. fold (Nat.iter k f c). now rewrite IH.
Qed.

Lemma orbit_stays (f : T -> T) (c a : T) (n i j : nat) :
  f c = c -> (i <= j)%nat -> (j < n)%nat ->
  nth_error (orbit f n a) i = Some c ->
  nth_error (orbit f n a) j = Some c.
Proof.
  intros Hc Hij Hj Hi.
  rewrite orbit_nth in Hi by lia. injection Hi as Hi.
  rewrite orbit_nth by exact Hj. f_equal.
  replace j with ((j - i) + i)%nat by lia.
  rewrite Nat.iter_add, Hi. apply iter_fixed; exact Hc.
Qed.

Lemma rk4_std_next_crashed : rk4_std_next (lit 0 0) = lit 0 0.
Proof. unfold rk4_std_next. now rewrite zero_not_above_zero. Qed.

Lemma rk4_itlt_next_frozen :
  rk4_itlt_next Adwanced_simulation.L_P = Adwanced_simulation.L_P.
Proof.
  unfold rk4_itlt_next, Adwanced_simulation.L_P.
  now rewrite boundary_not_above_boundary.
Qed.

Lemma euler_std_next_crashed : euler_std_next (lit 0 0) = lit 0 0.
Proof. unfold euler_std_next. now rewrite zero_not_above_zero. Qed.

Lemma euler_itlt_next_frozen : euler_itlt_next (lit 1 0) = lit 1 0.
Proof. unfold euler_itlt_next. now rewrite boundary_not_above_boundary. Qed.

(** C6: in a run of any length from any start position, once a recorded
    position of a particle equals its clamp value (0 for the Standard
    particle, the boundary length for the ITLT particle), every later
    recorded position of that particle equals the same clamp value, in the
    RK4 driver and in the Euler driver.  At the clamp value the guard of the
    integration step is false, so the loop takes the branch that assigns the
    clamp value and applies no integration step. *)
Theorem clamp_is_permanent (x0 : T) (n : nat) :
  exists out : Adwanced_simulation.sim T,
    Adwanced_simulation.for_range n (Adwanced_simulation.initial x0)
    = inr out /\
    forall i j : nat, (i <= j)%nat -> (j < n)%nat ->
      (nth_error (Adwanced_simulation.hist_std out) i = Some (lit 0 0) ->
       nth_error (Adwanced_simulation.hist_std out) j = Some (lit 0 0) /\
       (lit 0 0 >? lit 0 0) = false) /\
      (nth_error (Adwanced_simulation.hist_itlt out) i
       = Some Adwanced_simulation.L_P ->
       nth_error (Adwanced_simulation.hist_itlt out) j
       = Some Adwanced_simulation.L_P /\
       (Adwanced_simulation.L_P >? Adwanced_simulation.L_P) = false) /\
      (nth_error
         (itlt_simulation.dist_classical
            (itlt_simulation.for_range n (itlt_simulation.initial x0))) i
       = Some (lit 0 0) ->
       nth_error
         (itlt_simulation.dist_classical
            (itlt_simulation.for_range n (itlt_simulation.initial x0))) j
       = Some (lit 0 0)) /\
      (nth_error
         (itlt_simulation.dist_itlt
            (itlt_simulation.for_range n (itlt_simulation.initial x0))) i
       = Some (lit 1 0) ->
       nth_error
         (itlt_simulation.dist_itlt
            (itlt_simulation.for_range n (itlt_simulation.initial x0))) j
       = Some (lit 1 0)).
Proof.
  eexists. split.
  - apply Adwanced_for_range_orbit; reflexivity.
  - intros i j Hij Hj.
    rewrite itlt_for_range_orbit.
    cbn [Adwanced_simulation.hist_std Adwanced_simulation.hist_itlt
         Adwanced_simulation.initial itlt_simulation.initial
         itlt_simulation.dist_classical itlt_simulation.dist_itlt
         itlt_simulation.x_class itlt_simulation.x_itlt app].
    split; [| split; [| split]]; intros Hi.
    + split; [| exact zero_not_above_zero].
      eapply orbit_stays; eauto using rk4_std_next_crashed.
    + split; [| exact boundary_not_above_boundary].
      eapply orbit_stays; eauto using rk4_itlt_next_frozen.
    + eapply orbit_stays; eauto using euler_std_next_crashed.
    + eapply orbit_stays; eauto using euler_itlt_next_frozen.
Qed.
End Permanence.

Lemma clamp_is_permanent_witness :
  exists out : Adwanced_simulation.sim float,
    Adwanced_simulation.for_range 6 (Adwanced_simulation.initial 0.01%float)
    = inr out /\
    nth_error (Adwanced_simulation.hist_std out) 2 = Some 0%float /\
    nth_error (Adwanced_simulation.hist_std out) 5 = Some 0%float.
Proof.
  destruct (@clamp_is_permanent float float_arith eq_refl eq_refl
              0.01%float 6)
    as [out [E Hall]].
  exists out. split; [exact E |].
  assert (Hi : nth_error (Adwanced_simulation.hist_std out) 2
               = Some 0%float).
  { vm_compute in E. injection E as <-. reflexivity. }
  split; [exact Hi |].
  apply (Hall 2%nat 5%nat); [lia | lia | exact Hi].
Defined.

(** ** Shape of the recorded series *)

Section SeriesShape.
Context {T : Type} `{Arith T}.
Local Open Scope py_scope.

Lemma nth_error_orbit_from_nil (f : T -> T) (n i : nat) (a : T) :
  (i < n)%nat -> nth_error ([] ++ orbit f n a) i = Some (Nat.iter i f a).
Proof. intros Hi. cbn [app]. apply orbit_nth; exact Hi. Qed.

(** A run of [n] iterations of the RK4 loop from [x0]: it does not raise,
    each series has [n] samples, sample [i] is the state after [i]
    iterations (the time after [i] additions of [DT] to 0, the positions
    after [i] updates), and the state after the [n]-th iteration is left in
    the loop variables without being recorded. *)
Lemma Adwanced_series_shape (x0 : T) (n : nat) :
  exists out : Adwanced_simulation.sim T,
    Adwanced_simulation.for_range n (Adwanced_simulation.initial x0)
    = inr out /\
    List.length (Adwanced_simulation.time_points out) = n /\
    List.length (Adwanced_simulation.hist_std out) = n /\
    List.length (Adwanced_simulation.hist_itlt out) = n /\
    (forall i : nat, (i < n)%nat ->
       nth_error (Adwanced_simulation.time_points out) i
       = Some (Nat.iter i (fun t0 => t0 + Adwanced_simulation.DT) (lit 0 0)) /\
       nth_error (Adwanced_simulation.hist_std out) i
       = Some (Nat.iter i rk4_std_next x0) /\
       nth_error (Adwanced_simulation.hist_itlt out) i
       = Some (Nat.iter i rk4_itlt_next x0)) /\
    Adwanced_simulation.t out
    = Nat.iter n (fun t0 => t0 + Adwanced_simulation.DT) (lit 0 0) /\
    Adwanced_simulation.state_std out = [Nat.iter n rk4_std_next x0] /\
    Adwanced_simulation.state_itlt out = [Nat.iter n rk4_itlt_next x0].
Proof.
  eexists. split.
  - apply Adwanced_for_range_orbit; reflexivity.
  - cbn [Adwanced_simulation.time_points Adwanced_simulation.hist_std
         Adwanced_simulation.hist_itlt Adwanced_simulation.initial
         Adwanced_simulation.t Adwanced_simulation.state_std
         Adwanced_simulation.state_itlt app].
    rewrite !orbit_length.
    repeat split; try reflexivity; apply orbit_nth; assumption.
Qed.

Lemma itlt_series_shape (x0 : T) (n : nat) :
  let out := itlt_simulation.for_range n (itlt_simulation.initial x0) in
  List.length (itlt_simulation.time_axis out) = n /\
  List.length (itlt_simulation.dist_classical out) = n /\
  List.length (itlt_simulation.dist_itlt out) = n /\
  (forall i : nat, (i < n)%nat ->
     nth_error (itlt_simulation.time_axis out) i
     = Some (Nat.iter i (fun t0 => t0 + itlt_simulation.dt) (lit 0 0)) /\
     nth_error (itlt_simulation.dist_classical out) i
     = Some (Nat.iter i euler_std_next x0) /\
     nth_error (itlt_simulation.dist_itlt out) i
     = Some (Nat.iter i euler_itlt_next x0)) /\
  itlt_simulation.t out
  = Nat.iter n (fun t0 => t0 + itlt_simulation.dt) (lit 0 0) /\
  itlt_simulation.x_class out = Nat.iter n euler_std_next x0 /\
  itlt_simulation.x_itlt out = Nat.iter n euler_itlt_next x0.
Proof.
  cbv zeta. rewrite itlt_for_range_orbit.
  cbn [itlt_simulation.time_axis itlt_simulation.dist_classical
       itlt_simulation.dist_itlt itlt_simulation.initial
       itlt_simulation.t itlt_simulation.x_class itlt_simulation.x_itlt app].
  rewrite !orbit_length.
  repeat split; try reflexivity; apply orbit_nth; assumption.
Qed.
End SeriesShape.

(** In exact arithmetic [i] additions of the time step to 0 give [i * dt]. *)
Lemma accumulated_time_real (h : R) (i : nat) :
  Nat.iter i (fun t0 : R => (t0 + h)%py) 0%R = (INR i * h)%R.
Proof.
  induction i as [| i IH].
  - cbn. lra.
  - cbn [Nat.iter nat_rect]. fold (Nat.iter i (fun t0 : R => (t0 + h)%py) 0%R).
    rewrite IH, S_INR. cbn [Aadd real_arith]. lra.
Qed.

(** C4, as the code has it: a run of [n] iterations produces exactly [n]
    samples in each of the three series of either script, without raising;
    sample 0 is the initial state (time 0, the start distance), sample [i]
    is the state before iteration [i], whose time is the result of adding
    the time step [i] times to 0, and the state computed by the last
    iteration stays in the loop variables, unrecorded.  In exact arithmetic
    the accumulated time is [i * dt]; in binary64 it is the rounded running
    sum, which need not be the product. *)
Theorem recorded_series_are_prestep_states :
  (forall (T : Type) (H : Arith T) (x0 : T) (n : nat),
     (exists out : Adwanced_simulation.sim T,
        Adwanced_simulation.for_range n (Adwanced_simulation.initial x0)
        = inr out /\
        List.length (Adwanced_simulation.time_points out) = n /\
        List.length (Adwanced_simulation.hist_std out) = n /\
        List.length (Adwanced_simulation.hist_itlt out) = n /\
        ((0 < n)%nat ->
           nth_error (Adwanced_simulation.time_points out) 0
           = Some (lit 0 0) /\
           nth_error (Adwanced_simulation.hist_std out) 0 = Some x0 /\
           nth_error (Adwanced_simulation.hist_itlt out) 0 = Some x0) /\
        (forall i : nat, (i < n)%nat ->
           nth_error (Adwanced_simulation.time_points out) i
           = Some (Nat.iter i (fun t0 => t0 + Adwanced_simulation.DT)%py
                     (lit 0 0)) /\
           nth_error (Adwanced_simulation.hist_std out) i
           = Some (Nat.iter i rk4_std_next x0) /\
           nth_error (Adwanced_simulation.hist_itlt out) i
           = Some (Nat.iter i rk4_itlt_next x0)) /\
        Adwanced_simulation.state_std out = [Nat.iter n rk4_std_next x0] /\
        Adwanced_simulation.state_itlt out
        = [Nat.iter n rk4_itlt_next x0]) /\
     (let out := itlt_simulation.for_range n (itlt_simulation.initial x0) in
      List.length (itlt_simulation.time_axis out) = n /\
      List.length (itlt_simulation.dist_classical out) = n /\
      List.length (itlt_simulation.dist_itlt out) = n /\
      ((0 < n)%nat ->
         nth_error (itlt_simulation.time_axis out) 0 = Some (lit 0 0) /\
         nth_error (itlt_simulation.dist_classical out) 0 = Some x0 /\
         nth_error (itlt_simulation.dist_itlt out) 0 = Some x0) /\
      (forall i : nat, (i < n)%nat ->
         nth_error (itlt_simulation.time_axis out) i
         = Some (Nat.iter i (fun t0 => t0 + itlt_simulation.dt)%py
                   (lit 0 0)) /\
         nth_error (itlt_simulation.dist_classical out) i
         = Some (Nat.iter i euler_std_next x0) /\
         nth_error (itlt_simulation.dist_itlt out) i
         = Some (Nat.iter i euler_itlt_next x0)) /\
      itlt_simulation.x_class out = Nat.iter n euler_std_next x0 /\
      itlt_simulation.x_itlt out = Nat.iter n euler_itlt_next x0)) /\
  (forall (h : R) (i : nat),
     Nat.iter i (fun t0 : R => (t0 + h)%py) 0%R = (INR i * h)%R).
Proof.
  split; [| exact accumulated_time_real].
  intros T H x0 n. split.
  - destruct (Adwanced_series_shape x0 n)
      as (out & E & L1 & L2 & L3 & Hs & _ & S1 & S2).
    exists out. repeat split; try assumption; try (apply Hs; assumption).
    all: intros Hn; apply (Hs 0%nat Hn).
  - pose proof (itlt_series_shape x0 n) as P. cbv zeta in P |- *.
    destruct P as (L1 & L2 & L3 & Hs & _ & S1 & S2).
    repeat split; try assumption; try (apply Hs; assumption).
    all: intros Hn; apply (Hs 0%nat Hn).
Qed.

Lemma recorded_series_are_prestep_states_witness :
  nth_error
    (itlt_simulation.dist_itlt
       (itlt_simulation.for_range 3 (itlt_simulation.initial 5%float))) 0
  = Some 5%float.
Proof.
  apply (proj1 recorded_series_are_prestep_states float float_arith
           5%float 3%nat).
  lia.
Defined.

(** C4 fails as stated in binary64: the time recorded at index 6 of the RK4
    run is the running sum 0.060000000000000005, not the product
    [6 * DT = 0.06]. *)
Lemma time_sample_is_not_the_product :
  exists out : Adwanced_simulation.sim float,
    Adwanced_simulation.run_simulation = inr out /\
    nth_error (Adwanced_simulation.time_points out) 6
    = Some 0.060000000000000005%float /\
    (lit 6 0 * Adwanced_simulation.DT)%py = 0.06%float /\
    PrimFloat.eqb 0.060000000000000005%float
      (lit 6 0 * Adwanced_simulation.DT)%py = false.
Proof.
  destruct (Adwanced_series_shape (T:=float) (lit 5 0)
              Adwanced_simulation.TOTAL_STEPS)
    as (out & E & _ & _ & _ & Hs & _).
  exists out. split; [exact E |].
  assert (H6 : (6 < Adwanced_simulation.TOTAL_STEPS)%nat)
    by (apply Nat.ltb_lt; vm_compute; reflexivity).
  destruct (Hs 6%nat H6) as [Ht _]. rewrite Ht.
  vm_compute. repeat split.
Qed.

(** ** The binary64 run of the Euler script *)

Section EulerRun.
Import itlt_simulation.

Lemma total_steps_bound (i : nat) :
  Nat.ltb i total_steps = true -> (i < total_steps)%nat.
Proof. apply Nat.ltb_lt. Qed.

(** C2 at the run the Euler script performs (boundary 1, start 5, dt 0.01,
    2000 steps): the ITLT position recorded at index 977 is below the
    boundary length and the Standard position recorded at index 1001 is
    negative. *)
Theorem euler_run_leaves_the_bounds :
  nth_error (dist_itlt (run_simulation (T:=float))) 977
  = Some 0.99998870791086403%float /\
  PrimFloat.ltb 0.99998870791086403%float 1%float = true /\
  nth_error (dist_classical (run_simulation (T:=float))) 1001
  = Some (-0.0049999999999155555)%float /\
  PrimFloat.ltb (-0.0049999999999155555)%float 0%float = true.
Proof.
  pose proof (itlt_series_shape (T:=float) start_distance total_steps) as P.
  cbv zeta in P. destruct P as (_ & _ & _ & Hs & _).
  unfold run_simulation.
  destruct (Hs 977%nat (total_steps_bound 977 eq_refl)) as (_ & _ & E1).
  destruct (Hs 1001%nat (total_steps_bound 1001 eq_refl)) as (_ & E2 & _).
  rewrite E1, E2. vm_compute. repeat split.
Qed.

(** C5 at the same run: the ITLT series rises from index 977 to index 978
    (from below the boundary back to it) and the Standard series rises from
    index 1001 to index 1002 (from a negative position back to 0). *)
Theorem euler_run_rebounds :
  nth_error (dist_itlt (run_simulation (T:=float))) 977
  = Some 0.99998870791086403%float /\
  nth_error (dist_itlt (run_simulation (T:=float))) 978 = Some 1%float /\
  PrimFloat.ltb 0.99998870791086403%float 1%float = true /\
  nth_error (dist_classical (run_simulation (T:=float))) 1001
  = Some (-0.0049999999999155555)%float /\
  nth_error (dist_classical (run_simulation (T:=float))) 1002
  = Some 0%float /\
  PrimFloat.ltb (-0.0049999999999155555)%float 0%float = true.
Proof.
  pose proof (itlt_series_shape (T:=float) start_distance total_steps) as P.
  cbv zeta in P. destruct P as (_ & _ & _ & Hs & _).
  unfold run_simulation.
  destruct (Hs 977%nat (total_steps_bound 977 eq_refl)) as (_ & _ & E1).
  destruct (Hs 978%nat (total_steps_bound 978 eq_refl)) as (_ & _ & E2).
  destruct (Hs 1001%nat (total_steps_bound 1001 eq_refl)) as (_ & E3 & _).
  destruct (Hs 1002%nat (total_steps_bound 1002 eq_refl)) as (_ & E4 & _).
  rewrite E1, E2, E3, E4. vm_compute. repeat split.
Qed.
End EulerRun.

(** ** The curve sampler in binary64 *)

Section CurveSampler.
Import itlt_simulation.
Local Open Scope float_scope.


(** C8 fails as stated: at distance factor 10.0 the dilation ratio is
    1.0050378152592121 while [k_inv / sqrt(1 - 0.01)], with the script's
    [k_inv = t_p], is 5.4184071064027818e-44; they differ by more than 1. *)
Lemma dilation_ratio_is_not_near_k_inv_quotient :
  nth_error (df (T:=float)) 149
  = Some (10, Finite 5.4184071064027818e-44, Finite 1.0050378152592121) /\
  k_inv / PrimFloat.sqrt (1 - 0.01) = 5.4184071064027818e-44 /\
  PrimFloat.ltb 1 (1.0050378152592121 - k_inv / PrimFloat.sqrt (1 - 0.01))
  = true.
Proof. vm_compute. repeat split. Qed.

(** C8, as the code has it: the row at distance factor 10.0 is the last
    row; its dilation value is [k_inv / sqrt(1 - 0.01)] and its dilation
    ratio, that value divided by [t_p], is finite and equal to
    [1 / sqrt(1 - 0.01)] (in binary64 bit for bit; in exact arithmetic
    because [k_inv = t_p]). *)
Theorem dilation_ratio_at_ten :
  (exists v r : float,
      nth_error (df (T:=float)) 149 = Some (10, Finite v, Finite r) /\
      v = k_inv / PrimFloat.sqrt (1 - 0.01) /\
      r = v / t_p /\
      is_finite r = true /\
      r = 1 / PrimFloat.sqrt (1 - 0.01) /\
      r = 1.0050378152592121) /\
  value_div (calculate_time_dilation (T:=R) 10%R) t_p
  = Finite (1 / R_sqrt.sqrt (1 - 1 / 10 * (1 / 10)))%R.
Proof.
  split.
  - exists 5.4184071064027818e-44, 1.0050378152592121.
    vm_compute. repeat split.
  - rewrite calculate_time_dilation_outside by lra.
    cbn [value_div]. f_equal.
    pose proof t_p_positive as Htp.
    pose proof (sqrt_radicand_bounds 10%R ltac:(lra)) as [Hs _].
    change (k_inv (T:=R)) with (t_p (T:=R)).
    cbn [Adiv real_arith]. field. split; lra.
Qed.
End CurveSampler.

(** ** The binary64 run of the RK4 script *)

Section RK4Run.
Context {T : Type} `{Arith T}.

Lemma orbit_forallb_iter (P : T -> bool) (f : T -> T) (n : nat) :
  forall a : T, orbit_forallb P f n a = true ->
  forall i : nat, (i < n)%nat -> P (Nat.iter i f a) = true.
Proof.
  induction n as [| n IH]; intros a Hall i Hi; [lia |].
  cbn [orbit_forallb] in Hall. apply andb_prop in Hall as [Ha Hrest].
  destruct i as [| i]; [exact Ha |].
  rewrite Nat.iter_succ_r. apply IH; [exact Hrest | lia].
Qed.
End RK4Run.

(** The run the RK4 script performs keeps what C2 and C5 state: every
    recorded Standard position is at least 0, every recorded ITLT position
    is at least the boundary length, and neither series ever rises. *)
Lemma rk4_run_contained_and_falling :
  exists out : Adwanced_simulation.sim float,
    Adwanced_simulation.run_simulation = inr out /\
    forall i : nat, (i < Adwanced_simulation.TOTAL_STEPS)%nat ->
      exists a b a' b' : float,
        nth_error (Adwanced_simulation.hist_std out) i = Some a /\
        nth_error (Adwanced_simulation.hist_itlt out) i = Some b /\
        PrimFloat.leb 0 a = true /\
        PrimFloat.leb Adwanced_simulation.L_P b = true /\
        a' = rk4_std_next a /\ b' = rk4_itlt_next b /\
        PrimFloat.leb a' a = true /\ PrimFloat.leb b' b = true /\
        ((S i < Adwanced_simulation.TOTAL_STEPS)%nat ->
           nth_error (Adwanced_simulation.hist_std out) (S i) = Some a' /\
           nth_error (Adwanced_simulation.hist_itlt out) (S i) = Some b').
Proof.
  destruct (Adwanced_series_shape (T:=float) (lit 5 0)
              Adwanced_simulation.TOTAL_STEPS)
    as (out & E & _ & _ & _ & Hs & _).
  exists out. split; [exact E |]. intros i Hi.
  destruct (Hs i Hi) as (_ & Ea & Eb).
  exists (Nat.iter i rk4_std_next (lit 5 0)),
         (Nat.iter i rk4_itlt_next (lit 5 0)),
         (rk4_std_next (Nat.iter i rk4_std_next (lit 5 0))),
         (rk4_itlt_next (Nat.iter i rk4_itlt_next (lit 5 0))).
  assert (Hstd : orbit_forallb
                   (fun a => PrimFloat.leb 0 a && PrimFloat.leb (rk4_std_next a) a)
                   rk4_std_next Adwanced_simulation.TOTAL_STEPS (lit 5 0)
                 = true) by (vm_compute; reflexivity).
  assert (Hitlt : orbit_forallb
                    (fun b => PrimFloat.leb Adwanced_simulation.L_P b
                              && PrimFloat.leb (rk4_itlt_next b) b)
                    rk4_itlt_next Adwanced_simulation.TOTAL_STEPS (lit 5 0)
                  = true) by (vm_compute; reflexivity).
  pose proof (orbit_forallb_iter _ _ _ _ Hstd i Hi) as Pa.
  pose proof (orbit_forallb_iter _ _ _ _ Hitlt i Hi) as Pb.
  cbv beta in Pa, Pb.
  apply andb_prop in Pa as [Pa1 Pa2]. apply andb_prop in Pb as [Pb1 Pb2].
  repeat split; try assumption.
  - destruct (Hs (S i) H) as (_ & Ea' & _). exact Ea'.
  - destruct (Hs (S i) H) as (_ & _ & Eb'). exact Eb'.
Qed.

(** * Further properties of the two drivers *)

(** Reads the interface operations at the real instance, leaving the
    instance argument of the modelled functions in place. *)
Ltac real_view :=
  autorewrite with real_lits;
  cbn [Aadd Asub Amul Adiv Aneg Asqrt Altb Aleb real_arith].

(** ** One RK4 step of the ITLT particle, over the reals *)

Section RK4StepReal.
Local Open Scope R_scope.
Import Adwanced_simulation.

Lemma rk4_scalar_standard_real (y h : R) :
  rk4_scalar standard_velocity y h = y - 1 / 2 * h.
Proof.
  unfold rk4_scalar, standard_velocity. cbv zeta. real_view. lra.
Qed.

Lemma itlt_velocity_bounds (x : R) :
  - (1 / 2) < itlt_velocity x <= - (1 / 2) / 1000000000.
Proof.
  pose proof (get_resistance_bounds x) as [Hlo Hhi].
  unfold itlt_velocity. real_view.
  set (r := get_resistance x) in *.
  assert (Hinv : / 1000000000 <= / r < 1).
  { split.
    - apply Rinv_le_contravar; lra.
    - rewrite <- Rinv_1. apply Rinv_lt_contravar; lra. }
  unfold Rdiv. lra.
Qed.

Lemma rk4_scalar_itlt_bounds (y h : R) :
  0 < h ->
  y - h / 2 < rk4_scalar itlt_velocity y h <= y - h / 2000000000.
Proof.
  intros Hh. unfold rk4_scalar. cbv zeta. real_view.
  pose proof (itlt_velocity_bounds y) as H1.
  pose proof (itlt_velocity_bounds (y + itlt_velocity y * h / 2)) as H2.
  set (k1 := itlt_velocity y) in *.
  set (k2 := itlt_velocity (y + k1 * h / 2)) in *.
  pose proof (itlt_velocity_bounds (y + k2 * h / 2)) as H3.
  set (k3 := itlt_velocity (y + k2 * h / 2)) in *.
  pose proof (itlt_velocity_bounds (y + k3 * h)) as H4.
  set (k4 := itlt_velocity (y + k3 * h)) in *.
  split; nra.
Qed.

End RK4StepReal.

(** ** The RK4 loop over the reals *)

Section RK4LoopReal.
Local Open Scope R_scope.
Import Adwanced_simulation.

Lemma real_DT : (DT : R) = 1 / 100.
Proof. unfold DT. apply real_lit_dt. Qed.

Lemma real_L_P : (L_P : R) = 1.
Proof. unfold L_P. apply real_lit_int. Qed.

Lemma rk4_std_next_real (a : R) :
  rk4_std_next a = if Rlt_dec 0 a then Rmax 0 (a - 1 / 200) else 0.
Proof.
  unfold rk4_std_next. rewrite rk4_scalar_standard_real, real_DT.
  cbv zeta. real_view.
  destruct (Rlt_dec 0 a); [| reflexivity].
  unfold Rmax.
  destruct (Rlt_dec (a - 1 / 2 * (1 / 100)) 0);
    destruct (Rle_dec 0 (a - 1 / 200)); lra.
Qed.

Lemma rk4_itlt_next_real (b : R) :
  rk4_itlt_next b
  = if Rlt_dec 1 b then Rmax 1 (rk4_scalar itlt_velocity b (1 / 100)) else 1.
Proof.
  unfold rk4_itlt_next. rewrite real_DT, real_L_P. cbv zeta. real_view.
  destruct (Rlt_dec 1 b); [| reflexivity].
  unfold Rmax.
  destruct (Rlt_dec (rk4_scalar itlt_velocity b (1 / 100)) 1);
    destruct (Rle_dec 1 (rk4_scalar itlt_velocity b (1 / 100))); lra.
Qed.

Lemma rk4_std_next_bounds (a : R) :
  0 <= rk4_std_next a /\
  (0 <= a -> rk4_std_next a <= a) /\
  (0 < a -> rk4_std_next a < a).
Proof.
  rewrite rk4_std_next_real.
  destruct (Rlt_dec 0 a) as [Ha | Ha].
  - pose proof (Rmax_l 0 (a - 1 / 200)).
    assert (Rmax 0 (a - 1 / 200) < a) by (apply Rmax_lub_lt; lra).
    repeat split; lra.
  - repeat split; lra.
Qed.

Lemma rk4_itlt_next_bounds (b : R) :
  1 <= rk4_itlt_next b /\
  (1 <= b -> rk4_itlt_next b <= b) /\
  (1 < b -> b - 1 / 200 < rk4_itlt_next b < b).
Proof.
  rewrite rk4_itlt_next_real.
  destruct (Rlt_dec 1 b) as [Hb | Hb].
  - pose proof (rk4_scalar_itlt_bounds b (1 / 100) ltac:(lra)) as [Hlo Hhi].
    pose proof (Rmax_l 1 (rk4_scalar itlt_velocity b (1 / 100))).
    pose proof (Rmax_r 1 (rk4_scalar itlt_velocity b (1 / 100))).
    assert (Rmax 1 (rk4_scalar itlt_velocity b (1 / 100)) < b)
      by (apply Rmax_lub_lt; lra).
    repeat split; lra.
  - repeat split; lra.
Qed.

Lemma iter_invariant (P : R -> Prop) (f : R -> R) (a : R) (i : nat) :
  (forall x : R, P x -> P (f x)) -> P a -> P (Nat.iter i f a).
Proof.
  intros Hstep Ha. induction i as [| i IH]; [exact Ha |].
  cbn [Nat.iter nat_rect]. apply Hstep. exact IH.
Qed.

Lemma iter_positive_step (P : R -> Prop) (f : R -> R) (a : R) (i : nat) :
  (forall x : R, P (f x)) -> P (Nat.iter (S i) f a).
Proof. intros Hstep. cbn [Nat.iter nat_rect]. apply Hstep. Qed.
End RK4LoopReal.

Section RK4RunReal.
Local Open Scope R_scope.
Import Adwanced_simulation.

Lemma rk4_std_orbit_nonneg (x0 : R) (i : nat) :
  0 <= x0 -> 0 <= Nat.iter i rk4_std_next x0.
Proof.
  intros H0. apply (iter_invariant (fun x => 0 <= x)); [| exact H0].
  intros x _. apply rk4_std_next_bounds.
Qed.

Lemma rk4_itlt_orbit_above (x0 : R) (i : nat) :
  1 <= x0 -> 1 <= Nat.iter i rk4_itlt_next x0.
Proof.
  intros H0. apply (iter_invariant (fun x => 1 <= x)); [| exact H0].
  intros x _. apply rk4_itlt_next_bounds.
Qed.

Lemma rk4_orbits_after_first_step (x0 : R) (i : nat) :
  (1 <= i)%nat ->
  0 <= Nat.iter i rk4_std_next x0 /\ 1 <= Nat.iter i rk4_itlt_next x0.
Proof.
  intros Hi. destruct i as [| i]; [lia |].
  cbn [Nat.iter nat_rect]. split.
  - apply rk4_std_next_bounds.
  - apply rk4_itlt_next_bounds.
Qed.

(** The recorded samples of a run are the orbit values. *)
Lemma Adwanced_samples (x0 : R) (n : nat) :
  exists out : sim R,
    for_range n (initial x0) = inr out /\
    forall (i : nat) (a b : R),
      nth_error (hist_std out) i = Some a ->
      nth_error (hist_itlt out) i = Some b ->
      (i < n)%nat /\
      a = Nat.iter i rk4_std_next x0 /\ b = Nat.iter i rk4_itlt_next x0.
Proof.
  destruct (Adwanced_series_shape x0 n)
    as (out & E & _ & L2 & _ & Hs & _).
  exists out. split; [exact E |]. intros i a b Ha Hb.
  assert (Hi : (i < n)%nat).
  { rewrite <- L2. apply nth_error_Some. rewrite Ha. discriminate. }
  destruct (Hs i Hi) as (_ & Ea & Eb).
  rewrite Ea in Ha. rewrite Eb in Hb.
  injection Ha as <-. injection Hb as <-. auto.
Qed.

(** In exact arithmetic the RK4 loop keeps both particles inside their
    bounds for every start position and run length: from the first update
    on (and from the start when the particle starts at or outside the
    boundary) every recorded Standard position is at least 0 and every
    recorded ITLT position is at least the boundary length. *)
Theorem rk4_run_contained (x0 : R) (n : nat) :
  exists out : sim R,
    for_range n (initial x0) = inr out /\
    forall (i : nat) (a b : R),
      nth_error (hist_std out) i = Some a ->
      nth_error (hist_itlt out) i = Some b ->
      (1 <= i)%nat \/ L_P <= x0 ->
      0 <= a /\ L_P <= b.
Proof.
  destruct (Adwanced_samples x0 n) as (out & E & Hs).
  exists out. split; [exact E |]. intros i a b Ha Hb Hcase.
  destruct (Hs i a b Ha Hb) as (_ & -> & ->).
  rewrite real_L_P in *.
  destruct Hcase as [Hi | Hx].
  - apply rk4_orbits_after_first_step; exact Hi.
  - split; [apply rk4_std_orbit_nonneg; lra
           | apply rk4_itlt_orbit_above; exact Hx].
Qed.

Lemma rk4_next_keeps_order (a b : R) :
  a <= b -> rk4_std_next a <= rk4_itlt_next b.
Proof.
  intros Hab.
  pose proof (rk4_itlt_next_bounds b) as (Hb0 & _ & Hb2).
  rewrite rk4_std_next_real.
  destruct (Rlt_dec 0 a) as [Ha | Ha]; [| lra].
  apply Rmax_lub; [lra |].
  destruct (Rlt_dec 1 b) as [Hb | Hb].
  - specialize (Hb2 Hb). lra.
  - lra.
Qed.

Lemma rk4_orbits_ordered (x0 : R) (i : nat) :
  Nat.iter i rk4_std_next x0 <= Nat.iter i rk4_itlt_next x0.
Proof.
  induction i as [| i IH]; [cbn; lra |].
  cbn [Nat.iter nat_rect]. apply rk4_next_keeps_order. exact IH.
Qed.

(** In exact arithmetic the ITLT particle of the RK4 loop is never closer
    to the centre than the Standard particle: at every recorded index the
    Standard position is at most the ITLT position. *)
Theorem rk4_run_itlt_never_overtaken (x0 : R) (n : nat) :
  exists out : sim R,
    for_range n (initial x0) = inr out /\
    forall (i : nat) (a b : R),
      nth_error (hist_std out) i = Some a ->
      nth_error (hist_itlt out) i = Some b ->
      a <= b.
Proof.
  destruct (Adwanced_samples x0 n) as (out & E & Hs).
  exists out. split; [exact E |]. intros i a b Ha Hb.
  destruct (Hs i a b Ha Hb) as (_ & -> & ->).
  apply rk4_orbits_ordered.
Qed.

End RK4RunReal.

Lemma rk4_run_contained_witness :
  exists out : Adwanced_simulation.sim R,
    Adwanced_simulation.for_range 2 (Adwanced_simulation.initial 5%R)
    = inr out /\
    (0 <= 5 /\ Adwanced_simulation.L_P <= 5)%R.
Proof.
  destruct (rk4_run_contained 5%R 2) as (out & E & Hall).
  exists out. split; [exact E |].
  destruct (Adwanced_series_shape 5%R 2) as (out' & E' & _ & _ & _ & Hs & _).
  rewrite E in E'. injection E' as <-.
  destruct (Hs 0%nat ltac:(lia)) as (_ & Ea & Eb).
  apply (Hall 0%nat 5%R 5%R Ea Eb).
  right. rewrite real_L_P. lra.
Defined.

Lemma rk4_run_itlt_never_overtaken_witness :
  exists out : Adwanced_simulation.sim R,
    Adwanced_simulation.for_range 2 (Adwanced_simulation.initial 5%R)
    = inr out /\ (5 <= 5)%R.
Proof.
  destruct (rk4_run_itlt_never_overtaken 5%R 2) as (out & E & Hall).
  exists out. split; [exact E |].
  destruct (Adwanced_series_shape 5%R 2) as (out' & E' & _ & _ & _ & Hs & _).
  rewrite E in E'. injection E' as <-.
  destruct (Hs 0%nat ltac:(lia)) as (_ & Ea & Eb).
  exact (Hall 0%nat 5%R 5%R Ea Eb).
Defined.

(** ** The Euler loop over the reals *)

Section EulerLoopReal.
Local Open Scope R_scope.
Import itlt_simulation.

Lemma real_dt : (dt : R) = 1 / 100.
Proof. unfold dt. apply real_lit_dt. Qed.

Lemma euler_std_next_real (a : R) :
  euler_std_next a = if Rlt_dec 0 a then a - 1 / 200 else 0.
Proof.
  unfold euler_std_next. rewrite real_dt. real_view.
  destruct (Rlt_dec 0 a); lra.
Qed.

Lemma euler_itlt_next_real (b : R) :
  euler_itlt_next b
  = if Rlt_dec 1 b
    then b - 1 / 2 / Adwanced_simulation.get_resistance b * (1 / 100)
    else 1.
Proof.
  unfold euler_itlt_next. rewrite real_dt. real_view.
  destruct (Rlt_dec 1 b) as [Hb | Hb]; [| reflexivity].
  rewrite time_resistance_at_real by exact Hb. reflexivity.
Qed.

Lemma euler_itlt_next_bounds (b : R) :
  1 < b -> b - 1 / 200 < euler_itlt_next b < b.
Proof.
  intros Hb. rewrite euler_itlt_next_real.
  destruct (Rlt_dec 1 b) as [_ | Hn]; [| lra].
  pose proof (get_resistance_bounds b) as [Hlo Hhi].
  set (res := Adwanced_simulation.get_resistance b) in *.
  assert (Hinv : 0 < / res < 1).
  { split.
    - apply Rinv_0_lt_compat; lra.
    - rewrite <- Rinv_1. apply Rinv_lt_contravar; lra. }
  unfold Rdiv. nra.
Qed.

(** Within 1/40000 above the boundary the damped Euler increment exceeds
    the distance to the boundary. *)
Lemma euler_itlt_next_undershoots (b : R) :
  1 < b < 1 + 1 / 40000 -> euler_itlt_next b < 1.
Proof.
  intros [Hb1 Hb2]. rewrite euler_itlt_next_real.
  destruct (Rlt_dec 1 b) as [_ | Hn]; [| lra].
  rewrite get_resistance_outside by exact Hb1.
  rewrite resistance_factor_real.
  pose proof (inv_bounds b Hb1) as [Hu0 Hu1].
  assert (Hub : 1 / b * b = 1) by (field; lra).
  pose proof (radicand_bounds b Hb1) as [Hr0 Hr1].
  pose proof (sqrt_radicand_bounds b Hb1) as [Hs0 Hs1].
  assert (Hss : sqrt (1 - 1 / b * (1 / b)) * sqrt (1 - 1 / b * (1 / b))
                = 1 - 1 / b * (1 / b)) by (apply sqrt_sqrt; lra).
  set (u := 1 / b) in *.
  set (s := sqrt (1 - u * u)) in *.
  set (d := b - 1).
  assert (Hd : 0 < d < 1 / 40000) by (unfold d; lra).
  assert (Hrad : d <= 1 - u * u).
  { assert (Hmul : (1 - u * u) * (b * b) = b * b - 1) by nra.
    assert (Hbb : d * (b * b) <= b * b - 1) by (unfold d; nra).
    assert (Hb2' : 0 < b * b) by nra.
    apply Rmult_le_reg_r with (b * b); [exact Hb2' |]. lra. }
  assert (Hs : 200 * d < s).
  { destruct (Rlt_or_le (200 * d) s) as [Hlt | Hge]; [exact Hlt |].
    exfalso.
    assert (s * s <= (200 * d) * (200 * d)) by nra.
    nra. }
  pose proof (Rmax_r (1 / 1000000000) s) as Hm.
  set (m := Rmax (1 / 1000000000) s) in *.
  assert (Hm0 : 0 < m) by lra.
  replace (1 / 2 / (1 / m)) with (m / 2) by (field; lra).
  unfold d in Hs. lra.
Qed.

Lemma euler_orbits_bounded_below (x0 : R) (i : nat) :
  1 <= x0 ->
  - (1 / 200) < Nat.iter i euler_std_next x0 /\
  1 - 1 / 200 < Nat.iter i euler_itlt_next x0.
Proof.
  intros Hx. split.
  - apply (iter_invariant (fun x => - (1 / 200) < x)); [| lra].
    intros x Hxx. rewrite euler_std_next_real.
    destruct (Rlt_dec 0 x); lra.
  - apply (iter_invariant (fun x => 1 - 1 / 200 < x)); [| lra].
    intros x Hxx. destruct (Rlt_or_le 1 x) as [H1 | H1].
    + pose proof (euler_itlt_next_bounds x H1). lra.
    + rewrite euler_itlt_next_real. destruct (Rlt_dec 1 x); lra.
Qed.

(** In exact arithmetic one iteration of the Euler loop has no floor: a
    Standard particle closer than one step (0.005) to the centre is moved
    to a negative position, and an ITLT particle within 1/40000 above the
    boundary is moved strictly below the boundary; the iteration after that
    resets the particle to exactly its clamp value. *)
Theorem euler_step_crosses_the_clamp (s : sim R) :
  (0 < x_class s < 1 / 200 ->
     x_class (loop_body s) < 0 /\
     x_class (loop_body (loop_body s)) = 0) /\
  (1 < x_itlt s < 1 + 1 / 40000 ->
     x_itlt (loop_body s) < 1 /\
     x_itlt (loop_body (loop_body s)) = 1).
Proof.
  rewrite !itlt_loop_body_next. cbn [x_class x_itlt]. split.
  - intros Ha. rewrite (euler_std_next_real (x_class s)).
    destruct (Rlt_dec 0 (x_class s)); [| lra].
    split; [lra |]. rewrite euler_std_next_real.
    destruct (Rlt_dec 0 (x_class s - 1 / 200)); lra.
  - intros Hb. pose proof (euler_itlt_next_undershoots _ Hb) as Hu.
    split; [exact Hu |]. rewrite (euler_itlt_next_real (euler_itlt_next _)).
    destruct (Rlt_dec 1 (euler_itlt_next (x_itlt s))); lra.
Qed.

(** In exact arithmetic the undershoot of the Euler loop is bounded by one
    Standard step: from a start at or outside the boundary, every recorded
    Standard position is above -0.005 and every recorded ITLT position is
    above the boundary length minus 0.005, for every run length. *)
Theorem euler_run_undershoot_bounded (x0 : R) (n : nat) :
  1 <= x0 ->
  forall (i : nat) (a b : R),
    nth_error (dist_classical (for_range n (initial x0))) i = Some a ->
    nth_error (dist_itlt (for_range n (initial x0))) i = Some b ->
    - (1 / 200) < a /\ 1 - 1 / 200 < b.
Proof.
  intros Hx i a b Ha Hb.
  pose proof (itlt_series_shape x0 n) as P. cbv zeta in P.
  destruct P as (_ & L2 & _ & Hs & _).
  assert (Hi : (i < n)%nat).
  { rewrite <- L2. apply nth_error_Some. rewrite Ha. discriminate. }
  destruct (Hs i Hi) as (_ & Ea & Eb).
  rewrite Ea in Ha. rewrite Eb in Hb.
  injection Ha as <-. injection Hb as <-.
  apply euler_orbits_bounded_below. exact Hx.
Qed.
End EulerLoopReal.

Lemma euler_step_crosses_the_clamp_witness :
  (itlt_simulation.x_class
     (itlt_simulation.loop_body (itlt_simulation.initial (1 / 400)%R))
   < 0)%R /\
  itlt_simulation.x_class
    (itlt_simulation.loop_body
       (itlt_simulation.loop_body (itlt_simulation.initial (1 / 400)%R)))
  = 0%R.
Proof.
  apply (euler_step_crosses_the_clamp
           (itlt_simulation.initial (1 / 400)%R)).
  cbn [itlt_simulation.x_class itlt_simulation.initial]. lra.
Defined.

Lemma euler_run_undershoot_bounded_witness :
  (- (1 / 200) < 5 /\ 1 - 1 / 200 < 5)%R.
Proof.
  apply (euler_run_undershoot_bounded 5%R 2 ltac:(lra) 0%nat 5%R 5%R);
    reflexivity.
Defined.

(** ** Errors and the unused clock *)

Section ErrorsAndClock.
Context {T : Type} `{Arith T}.
Local Open Scope py_scope.
Import Adwanced_simulation.

Lemma rk4_step_unknown_mode (t0 x : T) (rest : list T) (h : T)
  (mode : string) :
  mode <> "standard"%string -> mode <> "itlt"%string ->
  rk4_step t0 (x :: rest) h mode = inl UnboundLocalError.
Proof.
  intros H1 H2. unfold rk4_step, derivatives.
  cbn [getitem nth_error bind ret].
  destruct (String.eqb_spec mode "standard") as [E | _]; [contradiction |].
  destruct (String.eqb_spec mode "itlt") as [E | _]; [contradiction |].
  reflexivity.
Qed.

Lemma loop_body_empty_state (s : sim T) :
  state_std s = [] \/ state_itlt s = [] -> loop_body s = inl IndexError.
Proof.
  intros [E | E]; unfold loop_body; rewrite E.
  - reflexivity.
  - cbn [getitem nth_error bind ret raise].
    destruct (state_std s) as [| a rest]; reflexivity.
Qed.

(** Failures surface instead of being absorbed: an empty state vector makes
    [derivatives], [rk4_step], the loop body and every run of at least one
    iteration raise IndexError (nothing is recorded), and a mode other than
    'standard' and 'itlt' makes [rk4_step] raise UnboundLocalError on a
    non-empty state; a run of zero iterations returns its state untouched. *)
Theorem failures_propagate (t0 h : T) (mode : string) (s : sim T) (n : nat) :
  derivatives t0 [] mode = inl IndexError /\
  rk4_step t0 [] h mode = inl IndexError /\
  (forall (x : T) (rest : list T),
      mode <> "standard"%string -> mode <> "itlt"%string ->
      rk4_step t0 (x :: rest) h mode = inl UnboundLocalError) /\
  (state_std s = [] \/ state_itlt s = [] ->
     loop_body s = inl IndexError /\
     for_range (S n) s = inl IndexError) /\
  for_range 0 s = inr s.
Proof.
  repeat split.
  - intros x rest. apply rk4_step_unknown_mode.
  - apply loop_body_empty_state; assumption.
  - cbn [for_range]. rewrite loop_body_empty_state by assumption.
    reflexivity.
Qed.

(** The derivative law is autonomous: [derivatives] and [rk4_step] return
    the same result (value or exception) whatever time they are given, and
    the positions a run records and ends with do not depend on the clock:
    two runs from states with the same one-element positions and the same
    recorded positions agree on them after any number of iterations. *)
Theorem clock_is_never_read (t1 t2 h : T) (y : list T) (mode : string)
  (s1 s2 : sim T) (a b : T) (n : nat) :
  derivatives t1 y mode = derivatives t2 y mode /\
  rk4_step t1 y h mode = rk4_step t2 y h mode /\
  (state_std s1 = [a] -> state_itlt s1 = [b] ->
   state_std s2 = [a] -> state_itlt s2 = [b] ->
   hist_std s1 = hist_std s2 -> hist_itlt s1 = hist_itlt s2 ->
   exists o1 o2 : sim T,
     for_range n s1 = inr o1 /\ for_range n s2 = inr o2 /\
     hist_std o1 = hist_std o2 /\ hist_itlt o1 = hist_itlt o2 /\
     state_std o1 = state_std o2 /\ state_itlt o1 = state_itlt o2).
Proof.
  split; [reflexivity | split; [reflexivity |]].
  intros A1 B1 A2 B2 Hs Hi.
  eexists. eexists.
  split; [apply (Adwanced_for_range_orbit n s1 a b A1 B1) |].
  split; [apply (Adwanced_for_range_orbit n s2 a b A2 B2) |].
  cbn [hist_std hist_itlt state_std state_itlt].
  rewrite Hs, Hi. repeat split.
Qed.
End ErrorsAndClock.

Lemma failures_propagate_witness :
  Adwanced_simulation.rk4_step 0%float [5%float] 0.01%float "euler"
  = inl UnboundLocalError.
Proof.
  apply (failures_propagate 0%float 0.01%float "euler"
           (Adwanced_simulation.initial 5%float) 0).
  - intros E; discriminate E.
  - intros E; discriminate E.
Defined.

Lemma clock_is_never_read_witness :
  exists o1 o2 : Adwanced_simulation.sim float,
    Adwanced_simulation.for_range 2
      (Adwanced_simulation.initial 5%float) = inr o1 /\
    Adwanced_simulation.for_range 2
      {| Adwanced_simulation.t := 7%float;
         Adwanced_simulation.state_std := [5%float];
         Adwanced_simulation.state_itlt := [5%float];
         Adwanced_simulation.time_points := [1%float];
         Adwanced_simulation.hist_std := [];
         Adwanced_simulation.hist_itlt := [] |} = inr o2 /\
    Adwanced_simulation.hist_std o1 = Adwanced_simulation.hist_std o2 /\
    Adwanced_simulation.hist_itlt o1 = Adwanced_simulation.hist_itlt o2 /\
    Adwanced_simulation.state_std o1 = Adwanced_simulation.state_std o2 /\
    Adwanced_simulation.state_itlt o1 = Adwanced_simulation.state_itlt o2.
Proof.
  apply (clock_is_never_read 0%float 0%float 0.01%float [] "standard"
           (Adwanced_simulation.initial 5%float) _ 5%float 5%float 2);
    reflexivity.
Defined.

(** ** Every row of the sampled table, in binary64 *)

Section SamplerRows.
Import itlt_simulation.
Local Open Scope float_scope.

(** The sampler never takes the infinite branch of
    [calculate_time_dilation]: every one of its rows has a distance factor
    above 1, a finite dilation value and a finite dilation ratio above 1
    that is the value divided by [t_p]; and the ratio never rises along the
    table (the curve only falls as the distance grows). *)
Theorem sampler_rows_are_finite_and_falling :
  (forall row : float * value float * value float,
      In row (df (T:=float)) ->
      exists x v r : float,
        row = (x, Finite v, Finite r) /\
        PrimFloat.ltb 1 x = true /\
        is_finite v = true /\ is_finite r = true /\
        PrimFloat.ltb 1 r = true /\
        r = v / t_p) /\
  ascending
    (rev (map (fun row : float * value float * value float =>
                 match snd row with
                 | Finite r => r
                 | Infinity => PrimFloat.infinity
                 end) (df (T:=float)))) = true.
Proof.
  split; [| vm_compute; reflexivity].
  assert (Hall :
    forallb
      (fun row : float * value float * value float =>
         match row with
         | (x, Finite v, Finite r) =>
             PrimFloat.ltb 1 x && is_finite v && is_finite r
             && PrimFloat.ltb 1 r && PrimFloat.Leibniz.eqb r (v / t_p)
         | _ => false
         end) (df (T:=float)) = true) by (vm_compute; reflexivity).
  intros row Hin.
  pose proof (proj1 (forallb_forall _ _) Hall row Hin) as Hrow.
  destruct row as [[x [v |]] [r |]]; try discriminate Hrow.
  exists x, v, r.
  repeat (apply andb_prop in Hrow as [Hrow ?]).
  repeat split; try assumption.
  apply FloatAxioms.Leibniz.eqb_spec. assumption.
Qed.
End SamplerRows.

Lemma sampler_rows_are_finite_and_falling_witness :
  exists x v r : float,
    (10%float, Finite 5.4184071064027818e-44%float,
     Finite 1.0050378152592121%float) = (x, Finite v, Finite r) /\
    PrimFloat.ltb 1 x = true /\
    is_finite v = true /\ is_finite r = true /\
    PrimFloat.ltb 1 r = true /\
    r = (v / itlt_simulation.t_p)%float.
Proof.
  apply (proj1 sampler_rows_are_finite_and_falling).
  apply (nth_error_In _ 149). vm_compute. reflexivity.
Defined.

Lemma rk4_run_contained_and_falling_witness :
  exists out : Adwanced_simulation.sim float,
    Adwanced_simulation.run_simulation = inr out /\
    exists a : float,
      nth_error (Adwanced_simulation.hist_std out) 0 = Some a /\
      PrimFloat.leb 0 a = true.
Proof.
  destruct rk4_run_contained_and_falling as (out & E & Hall).
  exists out. split; [exact E |].
  assert (H0 : (0 < Adwanced_simulation.TOTAL_STEPS)%nat)
    by (apply Nat.ltb_lt; reflexivity).
  destruct (Hall 0%nat H0) as (a & b & a' & b' & Ea & _ & Pa & _).
  exists a. split; assumption.
Defined.

(** ** The Euler loop and the derivative law of the RK4 script *)

Section ForwardEuler.
Local Open Scope R_scope.
Import itlt_simulation.

Lemma derivatives_standard_velocity (t0 x : R) :
  Adwanced_simulation.derivatives t0 [x] "standard"
  = inr [standard_velocity x].
Proof. reflexivity. Qed.

Lemma derivatives_itlt_velocity (t0 x : R) :
  Adwanced_simulation.derivatives t0 [x] "itlt" = inr [itlt_velocity x].
Proof. reflexivity. Qed.

(** In exact arithmetic the loop of [itlt_simulation] is the forward Euler
    scheme for the derivative law of [Adwanced_simulation]: while a
    particle is above its clamp value, its next position is its position
    plus [dt] times the velocity that [derivatives] returns there, in
    Standard and in ITLT mode. *)
Theorem euler_loop_is_forward_euler (t0 : R) (s : sim R) :
  (0 < x_class s ->
     exists v : R,
       Adwanced_simulation.derivatives t0 [x_class s] "standard" = inr [v] /\
       x_class (loop_body s) = x_class s + v * dt) /\
  (1 < x_itlt s ->
     exists v : R,
       Adwanced_simulation.derivatives t0 [x_itlt s] "itlt" = inr [v] /\
       x_itlt (loop_body s) = x_itlt s + v * dt).
Proof.
  rewrite itlt_loop_body_next. cbn [x_class x_itlt]. split.
  - intros Ha. exists (standard_velocity (x_class s)).
    split; [apply derivatives_standard_velocity |].
    rewrite euler_std_next_real, real_dt.
    destruct (Rlt_dec 0 (x_class s)) as [_ | Hn]; [| lra].
    unfold standard_velocity. real_view. lra.
  - intros Hb. exists (itlt_velocity (x_itlt s)).
    split; [apply derivatives_itlt_velocity |].
    rewrite euler_itlt_next_real, real_dt.
    destruct (Rlt_dec 1 (x_itlt s)) as [_ | Hn]; [| lra].
    unfold itlt_velocity. real_view. unfold Rdiv. lra.
Qed.
End ForwardEuler.

Lemma euler_loop_is_forward_euler_witness :
  exists v : R,
    Adwanced_simulation.derivatives 0%R
      [itlt_simulation.x_itlt (itlt_simulation.initial 5%R)] "itlt"
    = inr [v] /\
    itlt_simulation.x_itlt
      (itlt_simulation.loop_body (itlt_simulation.initial 5%R))
    = (itlt_simulation.x_itlt (itlt_simulation.initial 5%R)
       + v * itlt_simulation.dt)%R.
Proof.
  apply (euler_loop_is_forward_euler 0%R (itlt_simulation.initial 5%R)).
  cbn [itlt_simulation.x_itlt itlt_simulation.initial]. lra.
Defined.

(** ** Containment of the RK4 loop in any arithmetic *)

Section ClampedAnywhere.
Context {T : Type} `{Arith T}.
Local Open Scope py_scope.
Import Adwanced_simulation.

(** The clamp values do not compare below themselves. *)
Hypothesis zero_not_below_zero : (lit 0 0 <? lit 0 0) = false.
Hypothesis boundary_not_below_boundary : (lit 1 0 <? lit 1 0) = false.

Lemma rk4_std_next_not_below (a : T) : (rk4_std_next a <? lit 0 0) = false.
Proof.
  unfold rk4_std_next.
  destruct (lit 0 0 <? a); [| exact zero_not_below_zero].
  cbv zeta.
  destruct (rk4_scalar standard_velocity a DT <? lit 0 0) eqn:E;
    [exact zero_not_below_zero | exact E].
Qed.

Lemma rk4_itlt_next_not_below (b : T) : (rk4_itlt_next b <? L_P) = false.
Proof.
  unfold rk4_itlt_next, L_P.
  destruct (lit 1 0 <? b); [| exact boundary_not_below_boundary].
  cbv zeta.
  destruct (rk4_scalar itlt_velocity b DT <? lit 1 0) eqn:E;
    [exact boundary_not_below_boundary | exact E].
Qed.

(** In every arithmetic in which 0 < 0 and 1 < 1 are false (binary64
    included, rounding, infinities and NaN notwithstanding), for every
    start position and run length, no position the RK4 loop records after
    its first update compares below the particle's clamp value: the test
    [position < 0] is false for the Standard series and the test
    [position < L_P] is false for the ITLT series. *)
Theorem rk4_run_never_below_clamp (x0 : T) (n : nat) :
  exists out : sim T,
    for_range n (initial x0) = inr out /\
    forall (i : nat) (a b : T),
      (1 <= i)%nat ->
      nth_error (hist_std out) i = Some a ->
      nth_error (hist_itlt out) i = Some b ->
      (a <? lit 0 0) = false /\ (b <? L_P) = false.
Proof.
  destruct (Adwanced_series_shape x0 n)
    as (out & E & _ & L2 & _ & Hs & _).
  exists out. split; [exact E |]. intros i a b Hi Ha Hb.
  assert (Hin : (i < n)%nat).
  { rewrite <- L2. apply nth_error_Some. rewrite Ha. discriminate. }
  destruct (Hs i Hin) as (_ & Ea & Eb).
  rewrite Ea in Ha. rewrite Eb in Hb.
  injection Ha as <-. injection Hb as <-.
  destruct i as [| i]; [lia |].
  cbn [Nat.iter nat_rect].
  split; [apply rk4_std_next_not_below | apply rk4_itlt_next_not_below].
Qed.
End ClampedAnywhere.

Lemma rk4_run_never_below_clamp_witness :
  exists out : Adwanced_simulation.sim float,
    Adwanced_simulation.for_range 3 (Adwanced_simulation.initial 0.004%float)
    = inr out /\
    PrimFloat.ltb 0%float 0%float = false.
Proof.
  destruct (@rk4_run_never_below_clamp float float_arith eq_refl eq_refl
              0.004%float 3) as (out & E & Hall).
  exists out. split; [exact E |].
  assert (Ha : nth_error (Adwanced_simulation.hist_std out) 1
               = Some 0%float)
    by (vm_compute in E; injection E as <-; reflexivity).
  assert (Hb : nth_error (Adwanced_simulation.hist_itlt out) 1
               = Some 1%float)
    by (vm_compute in E; injection E as <-; reflexivity).
  apply (Hall 1%nat 0%float 1%float (le_n 1) Ha Hb).
Defined.

(** * The Standard step and the resistance under rounding *)

(** ** Facts of binary64 *)

Section Binary64Facts.

Lemma SFsub_is_add_opp (x y : spec_float) :
  SFsub prec emax x y = SFadd prec emax x (SFopp y).
Proof.
  destruct x as [sx | sx | | sx mx ex], y as [sy | sy | | sy my ey];
    cbn [SFsub SFadd SFopp];
    try reflexivity;
    try (destruct sx, sy; reflexivity);
    try (destruct sy; reflexivity).
Qed.

(** Subtracting is adding the opposite, bit for bit. *)
Lemma float_sub_is_add_opp (x y : float) :
  PrimFloat.sub x y = PrimFloat.add x (PrimFloat.opp y).
Proof.
  apply Prim2SF_inj. rewrite sub_spec, add_spec, opp_spec.
  apply SFsub_is_add_opp.
Qed.


End Binary64Facts.

(** ** The Standard step in binary64 *)

Section StandardStepBinary64.
Import Adwanced_simulation.
Local Open Scope float_scope.

Lemma rk4_scalar_standard_binary64 (y h : float) :
  rk4_scalar standard_velocity y h = y + h / 6 * (-3).
Proof. reflexivity. Qed.

Lemma rk4_scalar_standard_at_DT (y : float) :
  rk4_scalar standard_velocity y DT = y - 0.005.
Proof.
  rewrite rk4_scalar_standard_binary64, float_sub_is_add_opp.
  reflexivity.
Qed.

Lemma euler_std_next_falling (y : float) :
  PrimFloat.ltb 0 y = true -> euler_std_next y = y - 0.005.
Proof.
  intros Hy. unfold euler_std_next.
  change (lit 0 0 <? y)%py with (PrimFloat.ltb 0 y). rewrite Hy.
  reflexivity.
Qed.

(** C1, as the code has it: every stage of the RK4 step in Standard mode is
    [-0.5], whatever the time and the position, and the weighted stage sum
    is exactly [-3], so one step from [y] with time step [h] returns
    [y + (h / 6) * (-3)].  In exact arithmetic that is [y - 0.5 * h] for
    every [h].  In binary64 each operation is rounded; with the scripts'
    time step 0.01 the result is [y - 0.005], bit for bit the position that
    [x_class -= v_infall * dt] computes in the loop of [itlt_simulation]
    for a falling particle, for every [y]. *)
Theorem rk4_standard_step_is_euler_up_to_rounding (t0 y h : float) :
  (forall t1 y1 : float, derivatives t1 [y1] "standard" = inr [-0.5]) /\
  rk4_step t0 [y] h "standard" = inr [y + h / 6 * (-3)] /\
  rk4_step t0 [y] DT "standard" = inr [y - 0.005] /\
  (forall s : itlt_simulation.sim float,
      itlt_simulation.x_class s = y -> PrimFloat.ltb 0 y = true ->
      itlt_simulation.x_class (itlt_simulation.loop_body s) = y - 0.005 /\
      rk4_step t0 [y] DT "standard"
      = inr [itlt_simulation.x_class (itlt_simulation.loop_body s)]) /\
  (forall t1 y1 h1 : R,
      rk4_step t1 [y1] h1 "standard" = inr [(y1 - 1 / 2 * h1)%R]).
Proof.
  split; [intros t1 y1; reflexivity |].
  split; [rewrite rk4_step_standard, rk4_scalar_standard_binary64;
          reflexivity |].
  assert (Hdt : rk4_step t0 [y] DT "standard" = inr [y - 0.005])
    by (rewrite rk4_step_standard, rk4_scalar_standard_at_DT; reflexivity).
  split; [exact Hdt |].
  split.
  - intros s Hs Hy.
    assert (Hnext : itlt_simulation.x_class (itlt_simulation.loop_body s)
                    = y - 0.005).
    { rewrite itlt_loop_body_next. cbn [itlt_simulation.x_class].
      rewrite Hs. apply euler_std_next_falling. exact Hy. }
    split; [exact Hnext |]. rewrite Hnext. exact Hdt.
  - intros t1 y1 h1.
    rewrite rk4_step_standard, rk4_scalar_standard_real. reflexivity.
Qed.
End StandardStepBinary64.

Lemma rk4_standard_step_is_euler_up_to_rounding_witness :
  itlt_simulation.x_class
    (itlt_simulation.loop_body (itlt_simulation.initial 5%float))
  = (5 - 0.005)%float.
Proof.
  apply (rk4_standard_step_is_euler_up_to_rounding 0%float 5%float 0%float);
    reflexivity.
Defined.

(** C1 fails as stated in binary64: from [y = 0.45] with time step 0.9 the
    RK4 step in Standard mode returns 5.5511151231257827e-17, while
    [y - 0.5 * dt] is 0. *)
Lemma rk4_standard_step_is_not_exact :
  Adwanced_simulation.rk4_step 0%float [0.45%float] 0.9%float "standard"
  = inr [5.5511151231257827e-17%float] /\
  (0.45 - 0.5 * 0.9)%float = 0%float /\
  PrimFloat.eqb 5.5511151231257827e-17%float (0.45 - 0.5 * 0.9)%float
  = false.
Proof. vm_compute. repeat split. Qed.

(** ** The resistance in binary64 and in exact arithmetic *)

Section ResistanceStructure.
Context {T : Type} `{Arith T}.
Local Open Scope py_scope.
Import Adwanced_simulation.




End ResistanceStructure.

Section ResistanceBinary64.
Import Adwanced_simulation.
Local Open Scope float_scope.



End ResistanceBinary64.

(** ** Safety of the divisions *)

Section ResistanceSafe.
Import Adwanced_simulation.

Lemma resistance_is_safe_at_spec (b : float) :
  resistance_is_safe_at b = true ->
  is_finite (get_resistance b) = true /\
  PrimFloat.leb 1 (get_resistance b) = true /\
  PrimFloat.leb (get_resistance b) 1e9 = true /\
  PrimFloat.eqb (get_resistance b) 0 = false /\
  exists v : float,
    derivatives 0%float [b] "itlt" = inr [v] /\
    is_finite v = true /\ PrimFloat.ltb v 0 = true.
Proof.
  unfold resistance_is_safe_at. cbv zeta. intros Hb.
  apply andb_prop in Hb as [Hb Hv].
  repeat (apply andb_prop in Hb as [Hb ?]).
  repeat split; try assumption.
  - now apply negb_true_iff.
  - destruct (derivatives 0%float [b] "itlt") as [e | [| v [| w l]]];
      try discriminate Hv.
    exists v. apply andb_prop in Hv as [Hv1 Hv2]. auto.
Qed.

(** The four stages of one RK4 step in ITLT mode call [derivatives] at the
    stage points, in order. *)
Lemma rk4_step_stage_points {T : Type} `{Arith T} (t0 y h : T) :
  exists p2 p3 p4 k1 k2 k3 k4 : T,
    rk4_stage_points itlt_velocity y h = [y; p2; p3; p4] /\
    derivatives t0 [y] "itlt" = inr [k1] /\
    derivatives (t0 + h / lit 2 0)%py [p2] "itlt" = inr [k2] /\
    derivatives (t0 + h / lit 2 0)%py [p3] "itlt" = inr [k3] /\
    derivatives (t0 + h)%py [p4] "itlt" = inr [k4] /\
    p2 = (y + k1 * h / lit 2 0)%py /\
    p3 = (y + k2 * h / lit 2 0)%py /\
    p4 = (y + k3 * h)%py /\
    rk4_step t0 [y] h "itlt"
    = inr [(y + h / lit 6 0
                * (k1 + lit 2 0 * k2 + lit 2 0 * k3 + k4))%py].
Proof. do 7 eexists. repeat split. Qed.



End ResistanceSafe.

Section ResistanceSafetyClaim.
Import Adwanced_simulation.

End ResistanceSafetyClaim.



(** ** Shape of the resistance curve *)

Section ResistanceCurve.
Import Adwanced_simulation.





End ResistanceCurve.

Section ResistanceCurveClaim.
Import Adwanced_simulation.



End ResistanceCurveClaim.



(** ** One RK4 step and the RK4 loop in exact arithmetic *)

Section RK4ExactBounds.
Local Open Scope R_scope.
Import Adwanced_simulation.

Lemma rk4_scalar_itlt_range (y h : R) :
  0 <= h ->
  y - h / 2 <= rk4_scalar itlt_velocity y h <= y - h / 2000000000.
Proof.
  intros Hh. unfold rk4_scalar. cbv zeta. real_view.
  pose proof (itlt_velocity_bounds y) as H1.
  pose proof (itlt_velocity_bounds (y + itlt_velocity y * h / 2)) as H2.
  set (k1 := itlt_velocity y) in *.
  set (k2 := itlt_velocity (y + k1 * h / 2)) in *.
  pose proof (itlt_velocity_bounds (y + k2 * h / 2)) as H3.
  set (k3 := itlt_velocity (y + k2 * h / 2)) in *.
  pose proof (itlt_velocity_bounds (y + k3 * h)) as H4.
  set (k4 := itlt_velocity (y + k3 * h)) in *.
  split; nra.
Qed.

(** In exact arithmetic one RK4 step in ITLT mode with a time step
    [h >= 0] never moves the particle outward and never moves it further
    inward than the Standard step from the same position: the result lies
    between the result of the Standard step and the position before the
    step. *)
Theorem rk4_itlt_step_bounds (t0 y h : R) :
  0 <= h ->
  exists y' ys : R,
    rk4_step t0 [y] h "itlt" = inr [y'] /\
    rk4_step t0 [y] h "standard" = inr [ys] /\
    ys <= y' <= y.
Proof.
  intros Hh.
  exists (rk4_scalar itlt_velocity y h), (rk4_scalar standard_velocity y h).
  pose proof (rk4_scalar_itlt_range y h Hh) as [Hlo Hhi].
  split; [apply rk4_step_itlt |].
  split; [apply rk4_step_standard |].
  rewrite rk4_scalar_standard_real. split; lra.
Qed.

(** In exact arithmetic, from a start at or outside the boundary, neither
    recorded series of the RK4 loop ever rises from one index to the
    next. *)
Theorem rk4_run_never_rises (x0 : R) (n : nat) :
  L_P <= x0 ->
  exists out : sim R,
    for_range n (initial x0) = inr out /\
    forall (i : nat) (a a' b b' : R),
      nth_error (hist_std out) i = Some a ->
      nth_error (hist_std out) (S i) = Some a' ->
      nth_error (hist_itlt out) i = Some b ->
      nth_error (hist_itlt out) (S i) = Some b' ->
      a' <= a /\ b' <= b.
Proof.
  rewrite real_L_P. intros Hx.
  destruct (Adwanced_samples x0 n) as (out & E & Hs).
  exists out. split; [exact E |]. intros i a a' b b' Ha Ha' Hb Hb'.
  destruct (Hs i a b Ha Hb) as (_ & -> & ->).
  destruct (Hs (S i) a' b' Ha' Hb') as (_ & -> & ->).
  cbn [Nat.iter nat_rect].
  fold (Nat.iter i rk4_std_next x0). fold (Nat.iter i rk4_itlt_next x0).
  pose proof (rk4_std_orbit_nonneg x0 i ltac:(lra)) as Pa.
  pose proof (rk4_itlt_orbit_above x0 i Hx) as Pb.
  pose proof (rk4_std_next_bounds (Nat.iter i rk4_std_next x0))
    as (_ & Ha1 & _).
  pose proof (rk4_itlt_next_bounds (Nat.iter i rk4_itlt_next x0))
    as (_ & Hb1 & _).
  split; auto.
Qed.
End RK4ExactBounds.

Lemma rk4_itlt_step_bounds_witness :
  exists y' ys : R,
    Adwanced_simulation.rk4_step 0%R [5%R] (1 / 100)%R "itlt" = inr [y'] /\
    Adwanced_simulation.rk4_step 0%R [5%R] (1 / 100)%R "standard"
    = inr [ys] /\
    (ys <= y' <= 5)%R.
Proof. apply (rk4_itlt_step_bounds 0%R 5%R (1 / 100)%R). lra. Defined.

Lemma rk4_run_never_rises_witness :
  (rk4_std_next 5 <= 5)%R /\ (rk4_itlt_next 5 <= 5)%R.
Proof.
  destruct (rk4_run_never_rises 5%R 3) as (out & E & Hall).
  - rewrite real_L_P. lra.
  - destruct (Adwanced_series_shape 5%R 3)
      as (out' & E' & _ & _ & _ & Hs & _).
    rewrite E in E'. injection E' as <-.
    destruct (Hs 0%nat ltac:(lia)) as (_ & Ea & Eb).
    destruct (Hs 1%nat ltac:(lia)) as (_ & Ea' & Eb').
    exact (Hall 0%nat 5%R (rk4_std_next 5%R) 5%R (rk4_itlt_next 5%R)
             Ea Ea' Eb Eb').
Defined.

(** ** The exported ratio and the integrator's resistance, in binary64 *)

Section RatioBinary64.
Import itlt_simulation.

Lemma ratio_close_on (rows : list (float * value float * value float)) :
  forallb
    (fun row : float * value float * value float =>
       match row with
       | (x, Finite v, Finite r) =>
           PrimFloat.Leibniz.eqb r (v / t_p)%float
           && close_to 1e-12 r (Adwanced_simulation.get_resistance x)
       | _ => false
       end) rows = true ->
  forall row : float * value float * value float,
    In row rows ->
    exists x v r : float,
      row = (x, Finite v, Finite r) /\
      r = (v / t_p)%float /\
      close_to 1e-12 r (Adwanced_simulation.get_resistance x) = true.
Proof.
  intros Hall row Hin.
  pose proof (proj1 (forallb_forall _ _) Hall row Hin) as Hrow.
  destruct row as [[x [v |]] [r |]]; try discriminate Hrow.
  apply andb_prop in Hrow as [H1 H2].
  exists x, v, r. repeat split; try assumption.
  apply FloatAxioms.Leibniz.eqb_spec. exact H1.
Qed.

(** In binary64 the Dilation_Ratio column of the curve sampler is, up to
    rounding, the resistance that the RK4 integrator uses: on each of the
    150 rows the ratio is the row's dilation value divided by [t_p] and
    agrees with [get_resistance] of the row's distance factor to within a
    relative difference of 1e-12. *)
Theorem dilation_ratio_is_the_resistance :
  forall row : float * value float * value float,
    In row (df (T:=float)) ->
    exists x v r : float,
      row = (x, Finite v, Finite r) /\
      r = (v / t_p)%float /\
      close_to 1e-12 r (Adwanced_simulation.get_resistance x) = true.
Proof.
  apply ratio_close_on. vm_compute. reflexivity.
Qed.
End RatioBinary64.

Lemma dilation_ratio_is_the_resistance_witness :
  exists x v r : float,
    (10%float, Finite 5.4184071064027818e-44%float,
     Finite 1.0050378152592121%float) = (x, Finite v, Finite r) /\
    r = (v / itlt_simulation.t_p)%float /\
    close_to 1e-12 r (Adwanced_simulation.get_resistance x) = true.
Proof.
  apply dilation_ratio_is_the_resistance.
  apply (nth_error_In _ 149). vm_compute. reflexivity.
Defined.
